(** * PhaseNet-TF: the AI4EPS dataset (src/data/components/ai4eps.py)

    A shallow embedding of [Ai4epsDataset] and of
    [split_train_test_val_for_ai4eps], and the properties of the sample
    construction pipeline: window extraction, phase-index realignment,
    stacking and the train/test/validation split.

    Python integers are [Z]; Python lists are [list]; Python floats are the
    kernel's binary64 floats; a raised exception is the [Raise] branch of
    [Py.result].  The waveform amplitudes (float32 tensors in the source) are
    an abstract type: no property below depends on their arithmetic. *)

From Stdlib Require Import ZArith String Bool Floats List Permutation Lia.
Import ListNotations.
#[local] Open Scope string_scope.
#[local] Open Scope list_scope.
#[local] Open Scope Z_scope.
#[local] Set Warnings "-inexact-float".

(** ** The Python operations the source relies on *)

Module Py.

(** The exception classes the modelled code can raise. *)
Inductive exn : Type :=
| IndexError      (* list index out of range *)
| KeyError        (* a key missing from the HDF5 container *)
| ValueError      (* min() of an empty sequence, int(nan) *)
| OverflowError.  (* int(inf) *)

Inductive result (A : Type) : Type :=
| Ok (a : A)
| Raise (e : exn).

Arguments Ok {A} a.
Arguments Raise {A} e.

Definition bind {A B : Type} (r : result A) (k : A -> result B) : result B :=
  match r with
  | Ok a => k a
  | Raise e => Raise e
  end.

(** [len(l)]. *)
Definition len {A : Type} (l : list A) : Z := Z.of_nat (length l).

(** [l[i]] on a list: an index in [-len(l), 0) counts from the end, an index
    outside [-len(l), len(l)) raises IndexError. *)
Definition getitem {A : Type} (l : list A) (i : Z) : result A :=
  let j := if i <? 0 then i + len l else i in
  if j <? 0 then Raise IndexError
  else match nth_error l (Z.to_nat j) with
       | Some a => Ok a
       | None => Raise IndexError
       end.

(** How a slice bound is read against a sequence of length [n]: a negative
    bound counts from the end, and the result is clamped to [0, n]. *)
Definition slice_bound (n i : Z) : Z :=
  if i <? 0 then Z.max (i + n) 0 else Z.min i n.

(** [l[start:stop]] (step 1): never raises. *)
Definition slice {A : Type} (start stop : Z) (l : list A) : list A :=
  let lo := slice_bound (len l) start in
  let hi := slice_bound (len l) stop in
  firstn (Z.to_nat (hi - lo)) (skipn (Z.to_nat lo) l).

(** [min(l)] on a list of integers: ValueError on the empty list. *)
Definition min (l : list Z) : result Z :=
  match l with
  | [] => Raise ValueError
  | x :: xs => Ok (fold_left Z.min xs x)
  end.

(** [x in l] on a list of strings. *)
Definition contains (x : string) (l : list string) : bool :=
  existsb (String.eqb x) l.

(** [l.index(x)]: the position of the first element equal to [x]; called
    only under [x in l] (otherwise Python raises ValueError, and this model
    returns [length l]). *)
Fixpoint index (x : string) (l : list string) : nat :=
  match l with
  | [] => O
  | y :: ys => if String.eqb x y then O else S (index x ys)
  end.

(** [float(n)] for an integer below 2^63 in magnitude. *)
Definition float_of_int (n : Z) : float :=
  if n <? 0 then PrimFloat.opp (PrimFloat.of_uint63 (Uint63.of_Z (- n)))
  else PrimFloat.of_uint63 (Uint63.of_Z n).

(** [int(f)]: truncation towards zero; ValueError on nan, OverflowError on
    an infinity. *)
Definition int_of_float (f : float) : result Z :=
  match Prim2SF f with
  | S754_zero _ => Ok 0
  | S754_finite s m e =>
      let v := match e with
               | Z0 => Zpos m
               | Zpos _ => Zpos m * 2 ^ e
               | Zneg p => Z.shiftr (Zpos m) (Zpos p)
               end in
      Ok (if s then - v else v)
  | S754_infinity _ => Raise OverflowError
  | S754_nan => Raise ValueError
  end.

End Py.

Import Py.

Notation "x <- r ;; k" := (Py.bind r (fun x => k))
  (at level 61, r at next level, right associativity).

(** ** Numeric kernels that the repository keeps outside the two source files

    The amplitude type with its addition, the per-channel rescaling of
    [normalize_waveform] and the gaussian bump of [generate_label] live in
    [src/data/components/utils.py] and in torch.  They are parameters of the
    development: the properties below hold for every choice of them. *)
Class Numerics : Type := {
  amp : Type;
  (** sum of two amplitudes (stacking) *)
  amp_add : amp -> amp -> amp;
  (** [rescale ch x]: the value of the sample [x] of channel [ch] after the
      per-channel rescaling *)
  rescale : list amp -> amp -> amp;
  (** [gaussian_bump w d]: the gaussian curve of width parameter [w] at
      signed distance [d] from its centre *)
  gaussian_bump : Z -> Z -> float
}.

(** ** Data model *)

Section Model.
Context {N : Numerics}.

(** One HDF5 dataset [f[event_id][station_id]]: the channel x time matrix
    and its attributes. *)
Record waveform_record : Type := {
  wf_data : list (list amp);
  attr_network : string;
  attr_phase_index : list Z;
  attr_phase_type : list string
}.

(** The file [waveform.h5]: groups keyed by event id, datasets keyed by
    station id. *)
Definition h5file : Type := list (string * list (string * waveform_record)).

Fixpoint assoc {V : Type} (k : string) (m : list (string * V)) : result V :=
  match m with
  | [] => Raise KeyError
  | (k', v) :: rest => if String.eqb k k' then Ok v else assoc k rest
  end.

(** [self.handler[event_id][station_id]]. *)
Definition h5_lookup (f : h5file) (event_id station_id : string)
  : result waveform_record :=
  g <- assoc event_id f ;;
  assoc station_id g.

(** The sample dictionary.  The keys [start_index], [end_index] and [label]
    are absent at some points of its life: [None] is the absent key. *)
Record sample : Type := {
  event_id : string;
  network : string;
  station_id : string;
  data : list (list amp);
  phase_index : list Z;
  phase_type : list string;
  start_index : option Z;
  end_index : option Z;
  label : option (list (list float))
}.

Definition set_bounds (s : sample) (a b : option Z) : sample :=
  {| event_id := event_id s; network := network s; station_id := station_id s;
     data := data s; phase_index := phase_index s; phase_type := phase_type s;
     start_index := a; end_index := b; label := label s |}.

Definition set_data (s : sample) (d : list (list amp)) : sample :=
  {| event_id := event_id s; network := network s; station_id := station_id s;
     data := d; phase_index := phase_index s; phase_type := phase_type s;
     start_index := start_index s; end_index := end_index s; label := label s |}.

Definition set_phase_index (s : sample) (p : list Z) : sample :=
  {| event_id := event_id s; network := network s; station_id := station_id s;
     data := data s; phase_index := p; phase_type := phase_type s;
     start_index := start_index s; end_index := end_index s; label := label s |}.

Definition set_phase_type (s : sample) (t : list string) : sample :=
  {| event_id := event_id s; network := network s; station_id := station_id s;
     data := data s; phase_index := phase_index s; phase_type := t;
     start_index := start_index s; end_index := end_index s; label := label s |}.

Definition set_label (s : sample) (l : option (list (list float))) : sample :=
  {| event_id := event_id s; network := network s; station_id := station_id s;
     data := data s; phase_index := phase_index s; phase_type := phase_type s;
     start_index := start_index s; end_index := end_index s; label := l |}.

Inductive shape : Type := gaussian | triangle.

(** The instance attributes set by [Ai4epsDataset.__init__]. *)
Record Ai4epsDataset : Type := {
  transform : option (sample -> sample);
  label_shape : shape;
  label_width_in_npts : Z;
  window_length_in_npts : Z;
  phases : list string;
  first_arrival_index_in_final_window_if_no_shift : Z;
  random_stack_two_waveforms_ratio : float;
  h5py_path : string;
  index_to_waveform_id : list (string * string)
}.

(** ** The helpers of src/data/components/utils.py *)

(** The index the source gives a canonical phase that has no pick
    (ai4eps.py, line 110). *)
Definition absent_index : Z := -999999999.

(** Modelled from the spec: the maximum of two label values, by which
    [stack_rand] (src/data/components/utils.py, not among the source files)
    combines two label curves (spec 4.4). *)
Definition fmax (x y : float) : float := if PrimFloat.ltb x y then y else x.

(** Modelled from the spec: the triangle curve of [generate_label]
    (src/data/components/utils.py, not among the source files), spec 4.3:
    [max(0, 1 - |d| / (w/2))] at signed distance [d] from the arrival. *)
Definition triangle_bump (w d : Z) : float :=
  fmax 0%float
       (1 - PrimFloat.abs (float_of_int d) / (float_of_int w / 2))%float.

(** Modelled from the spec: the curve of [generate_label] for either
    shape selector (spec 4.3). *)
Definition bump (sh : shape) (w d : Z) : float :=
  match sh with
  | gaussian => gaussian_bump w d
  | triangle => triangle_bump w d
  end.

(** Modelled from the spec: one row of the label tensor of
    [generate_label] (src/data/components/utils.py, not among the source
    files), spec 4.3: all zero for an absent phase, otherwise the bump
    centred at [i], sampled at the positions [0 .. L-1]. *)
Definition label_row (sh : shape) (w L i : Z) : list float :=
  if i =? absent_index then repeat 0%float (Z.to_nat L)
  else map (fun t => bump sh w (Z.of_nat t - i)) (seq 0 (Z.to_nat L)).

(** Modelled from the spec: [generate_label] is defined in
    src/data/components/utils.py, which is not among the source files.
    Spec 4.3: for each entry of the window-local phase index vector a
    length-[L] curve (zero for the absent index), stacked in the order of
    the vector into a [phases, L] tensor. *)
Definition generate_label (sh : shape) (w L : Z) (idxs : list Z)
  : list (list float) :=
  map (label_row sh w L) idxs.

(** Modelled from the spec: the rescaling that [normalize_waveform]
    (src/data/components/utils.py, not among the source files) applies to
    one channel (spec 4.5). *)
Definition normalize_channel (ch : list amp) : list amp := map (rescale ch) ch.

(** Modelled from the spec: [normalize_waveform] is defined in
    src/data/components/utils.py, which is not among the source files.
    Spec 4.5: a per-channel rescaling of the waveform that does not alter
    the label tensor (nor any other key). *)
Definition normalize_waveform (s : sample) : sample :=
  set_data s (map normalize_channel (data s)).

Fixpoint map2 {A B C : Type} (f : A -> B -> C) (l1 : list A) (l2 : list B)
  : list C :=
  match l1, l2 with
  | a :: l1', b :: l2' => f a b :: map2 f l1' l2'
  | _, _ => []
  end.

(** Modelled from the spec: [stack_rand] is defined in
    src/data/components/utils.py, which is not among the source files.
    Spec 4.4: the waveform is the elementwise sum of the two amplitude
    matrices; per canonical phase the two label curves are combined by the
    elementwise maximum; the reported phase index is that of whichever input
    has the phase present, the first sample preferred. *)
Definition stack_rand (s1 s2 : sample) (label_width : Z) : sample :=
  {| event_id := event_id s1; network := network s1;
     station_id := station_id s1;
     data := map2 (map2 amp_add) (data s1) (data s2);
     phase_index :=
       map2 (fun i j => if i =? absent_index then j else i)
            (phase_index s1) (phase_index s2);
     phase_type := phase_type s1;
     start_index := start_index s1; end_index := end_index s1;
     label := match label s1, label s2 with
              | Some l1, Some l2 => Some (map2 (map2 fmax) l1 l2)
              | _, _ => None
              end |}.

(** ** Ai4epsDataset *)

(** [Ai4epsDataset.__init__] (lines 19-47): every argument is stored as it
    is given; the HDF5 file is not opened here. *)
Definition __init__ (data_dir : string)
  (index_to_waveform_id : list (string * string))
  (transform : option (sample -> sample)) (label_shape : shape)
  (label_width_in_npts window_length_in_npts : Z) (phases : list string)
  (first_arrival_index_in_final_window_if_no_shift : Z)
  (random_stack_two_waveforms_ratio : float) : result Ai4epsDataset :=
  Ok {| transform := transform;
        label_shape := label_shape;
        label_width_in_npts := label_width_in_npts;
        window_length_in_npts := window_length_in_npts;
        phases := phases;
        first_arrival_index_in_final_window_if_no_shift :=
          first_arrival_index_in_final_window_if_no_shift;
        random_stack_two_waveforms_ratio := random_stack_two_waveforms_ratio;
        h5py_path := (data_dir ++ "/waveform.h5")%string;
        index_to_waveform_id := index_to_waveform_id |}.

(** [Ai4epsDataset.__len__] (line 65). *)
Definition __len__ (self : Ai4epsDataset) : Z := len (index_to_waveform_id self).

(** Lines 74-94 of [get_item_without_stack]: the record is read, the sample
    dictionary is built and the window is proposed.  The result is the
    dictionary, which carries the bounds under the keys [start_index] and
    [end_index], together with the local variables [start_index] and
    [end_index] of the method.  [store] is the content of the file at
    [self.h5py_path], as [self.handler] reads it. *)
Definition window_proposal (store : h5file) (self : Ai4epsDataset) (idx : Z)
  : result (sample * Z * Z) :=
  key <- getitem (index_to_waveform_id self) idx ;;
  let '(event_id, station_id) := key in
  rec <- h5_lookup store event_id station_id ;;
  let sample :=
    {| event_id := event_id; network := attr_network rec;
       station_id := station_id; data := wf_data rec;
       phase_index := attr_phase_index rec;
       phase_type := attr_phase_type rec;
       start_index := None; end_index := None; label := None |} in
  min_index <- Py.min (phase_index sample) ;;
  let start_index :=
    min_index - first_arrival_index_in_final_window_if_no_shift self in
  let end_index :=
    min_index - first_arrival_index_in_final_window_if_no_shift self
    + window_length_in_npts self in
  Ok (set_bounds sample (Some start_index) (Some end_index),
      start_index, end_index).

(** Lines 96-97: [if self.transform: sample = self.transform(sample)]. *)
Definition apply_transform (self : Ai4epsDataset) (s : sample) : sample :=
  match transform self with
  | Some f => f s
  | None => s
  end.

(** Lines 104-110: one entry per canonical phase, in the order of
    [self.phases]. *)
Fixpoint expand_phase_index (phases types : list string) (idxs : list Z)
  : result (list Z) :=
  match phases with
  | [] => Ok []
  | phase :: rest =>
      i <- (if contains phase types
            then getitem idxs (Z.of_nat (index phase types))
            else Ok absent_index) ;;
      more <- expand_phase_index rest types idxs ;;
      Ok (i :: more)
  end.

(** [Ai4epsDataset.get_item_without_stack] (lines 67-122).  The crop of
    line 100 and the shift of line 102 read the local variables
    [start_index] and [end_index], not the keys of the dictionary that the
    transform returned. *)
Definition get_item_without_stack (store : h5file) (self : Ai4epsDataset)
  (idx : Z) : result sample :=
  r <- window_proposal store self idx ;;
  let '(sample, start_index, end_index) := r in
  let sample := apply_transform self sample in
  let sample :=
    set_data sample (map (slice start_index end_index) (data sample)) in
  let sample :=
    set_phase_index sample
      (map (fun i => i - start_index) (phase_index sample)) in
  expanded_phase_index <-
    expand_phase_index (phases self) (phase_type sample) (phase_index sample) ;;
  let sample := set_phase_index sample expanded_phase_index in
  let sample := set_phase_type sample (phases self) in
  let sample :=
    set_label sample
      (Some (generate_label (label_shape self) (label_width_in_npts self)
               (window_length_in_npts self) (phase_index sample))) in
  Ok (normalize_waveform sample).

(** [Ai4epsDataset.__getitem__] (lines 124-146).  [u] is the value drawn by
    [torch.rand(1)] and [random_idx] the value drawn by
    [torch.randint(0, len(self), (1,))]. *)
Definition __getitem__ (store : h5file) (self : Ai4epsDataset) (idx : Z)
  (u : float) (random_idx : Z) : result sample :=
  current_sample <- get_item_without_stack store self idx ;;
  current_sample <-
    (if PrimFloat.ltb u (random_stack_two_waveforms_ratio self)
     then random_sample <- get_item_without_stack store self random_idx ;;
          Ok (stack_rand current_sample random_sample
                (label_width_in_npts self))
     else Ok current_sample) ;;
  let current_sample := normalize_waveform current_sample in
  Ok (set_bounds current_sample None None).

End Model.

(** ** The lazily opened handler *)

(** What an access through the handler ends in: the error of [h5py.File],
    or what the method makes of the content of the file. *)
Inductive access (A : Type) : Type :=
| OSError
| Done (r : result A).

Arguments OSError {A}.
Arguments Done {A} r.

Section LazyHandler.
Context {N : Numerics}.

(** The files that [h5py.File] can open: the content of the file at a path,
    [None] where there is no file.  A file is taken not to change while a
    handler on it is open. *)
Definition filesystem : Type := string -> option h5file.

(** [Ai4epsDataset.handler] (lines 49-58).  [cached] is the attribute
    [self._handler], which [__init__] sets to [None] (line 44).  The result
    is the handler returned together with the new value of the attribute;
    it is [None] when [h5py.File] raises for want of a file at
    [self.h5py_path]. *)
Definition handler (fs : filesystem) (self : Ai4epsDataset)
  (cached : option h5file) : option (h5file * option h5file) :=
  match cached with
  | None =>
      match fs (h5py_path self) with
      | Some h => Some (h, Some h)
      | None => None
      end
  | Some h => Some (h, cached)
  end.

(** [get_item_without_stack] with its accesses to [self.handler] (lines
    74-77): the index list is read first, so an index out of range raises
    before the file is looked for; the handler is then obtained, twice, the
    second time from the attribute.  The result comes with the new value of
    [self._handler]. *)
Definition get_item_without_stack_lazy (fs : filesystem) (self : Ai4epsDataset)
  (cached : option h5file) (idx : Z) : access sample * option h5file :=
  match getitem (index_to_waveform_id self) idx with
  | Raise e => (Done (Raise e), cached)
  | Ok _ =>
      match handler fs self cached with
      | None => (OSError, cached)
      | Some (h, cached) =>
          match handler fs self cached with
          | None => (OSError, cached)
          | Some (h', cached) =>
              (* [h] serves line 76 and [h'] line 77; they are the same *)
              (Done (get_item_without_stack h' self idx), cached)
          end
      end
  end.

End LazyHandler.

(** ** split_train_test_val_for_ai4eps *)

(** A row of [phase_picks.csv] (columns event_id, station_id, phase_index,
    phase_time, phase_score, phase_type, phase_polarity). *)
Record pick_row : Type := {
  row_event_id : string;
  row_station_id : string;
  row_phase_index : Z;
  row_phase_time : string;
  row_phase_score : float;
  row_phase_type : string;
  row_phase_polarity : string
}.

Definition waveform_id : Type := (string * string)%type.

Definition waveform_id_eqb (a b : waveform_id) : bool :=
  String.eqb (fst a) (fst b) && String.eqb (snd a) (snd b).

(** [phase_picks[["event_id", "station_id"]]]. *)
Definition id_columns (phase_picks : list pick_row) : list waveform_id :=
  map (fun r => (row_event_id r, row_station_id r)) phase_picks.

(** pandas' [drop_duplicates()]: of equal rows the first is kept, and the
    rows kept stay in their order. *)
Fixpoint drop_duplicates (l : list waveform_id) : list waveform_id :=
  match l with
  | [] => []
  | k :: rest =>
      k :: filter (fun k' => negb (waveform_id_eqb k k')) (drop_duplicates rest)
  end.

(** numpy's [np.split(a, [i, j])]: the sub-arrays [a[0:i]], [a[i:j]] and
    [a[j:len(a)]]. *)
Definition np_split {A : Type} (a : list A) (i j : Z)
  : list A * list A * list A :=
  (slice 0 i a, slice i j a, slice j (len a) a).

(** The two indices handed to [np.split] (line 168):
    [int(ratio[0]*n)] and [int((ratio[0]+ratio[1])*n)]. *)
Definition split_indices (ratio : list float) (n : Z) : result (Z * Z) :=
  r0 <- getitem ratio 0 ;;
  i <- int_of_float (r0 * float_of_int n)%float ;;
  r0 <- getitem ratio 0 ;;
  r1 <- getitem ratio 1 ;;
  j <- int_of_float ((r0 + r1) * float_of_int n)%float ;;
  Ok (i, j).

(** [np.random.default_rng(seed)] (line 165) on an integer seed: a negative
    seed raises ValueError; otherwise the generator is determined by the
    seed. *)
Definition default_rng (seed : Z) : result Z :=
  if seed <? 0 then Raise ValueError else Ok seed.

Section Splitter.

(** [rng.shuffle] (line 166): the generator is created from the seed at
    every call, so the order it leaves depends on the seed and on the array
    only. *)
Variable shuffle : Z -> list waveform_id -> list waveform_id.

(** [split_train_test_val_for_ai4eps] (lines 149-169); [phase_picks] is the
    content of [data_dir / "phase_picks.csv"]. *)
Definition split_train_test_val_for_ai4eps (phase_picks : list pick_row)
  (ratio : list float) (seed : Z)
  : result (list waveform_id * list waveform_id * list waveform_id) :=
  let unique_event_station_pairs := drop_duplicates (id_columns phase_picks) in
  rng <- default_rng seed ;;
  let unique_event_station_pairs := shuffle rng unique_event_station_pairs in
  ij <- split_indices ratio (len unique_event_station_pairs) ;;
  Ok (np_split unique_event_station_pairs (fst ij) (snd ij)).

End Splitter.

(** ** The vocabulary of the properties *)

Section Statements.
Context {N : Numerics}.
Implicit Types (self : Ai4epsDataset) (store : h5file) (s smp : sample).

(** The picks of a sample dictionary: its parallel lists [phase_type] and
    [phase_index], paired. *)
Definition picks_of (s : sample) : list (string * Z) :=
  combine (phase_type s) (phase_index s).

(** The raw index of the first pick of phase [ph], if there is one. *)
Definition first_pick (ph : string) (picks : list (string * Z)) : option Z :=
  option_map snd (find (fun p => String.eqb ph (fst p)) picks).

(** What the phase index vector is meant to be: per canonical phase, the
    window-local index of its pick, or the absent index. *)
Definition canonical_indices (phases : list string) (picks : list (string * Z))
  (start : Z) : list Z :=
  map (fun ph => match first_pick ph picks with
                 | Some raw => raw - start
                 | None => absent_index
                 end) phases.

(** The sample dictionary that line 79 builds from a record. *)
Definition sample_of_record (e st : string) (rec : waveform_record) : sample :=
  {| event_id := e; network := attr_network rec; station_id := st;
     data := wf_data rec; phase_index := attr_phase_index rec;
     phase_type := attr_phase_type rec;
     start_index := None; end_index := None; label := None |}.

(** The sample assembled from the dictionary [hooked] that the transform
    step left, and from the local bounds [a] and [b]. *)
Definition assembled self (hooked : sample) (a b : Z) : sample :=
  let idxs := canonical_indices (phases self) (picks_of hooked) a in
  {| event_id := event_id hooked; network := network hooked;
     station_id := station_id hooked;
     data := map normalize_channel (map (slice a b) (data hooked));
     phase_index := idxs;
     phase_type := phases self;
     start_index := start_index hooked; end_index := end_index hooked;
     label := Some (generate_label (label_shape self) (label_width_in_npts self)
                      (window_length_in_npts self) idxs) |}.

(** The parallel lists of picks have the same length (spec 6: the
    attributes [phase_index] and [phase_type] are parallel). *)
Definition parallel_picks (s : sample) : Prop :=
  List.length (phase_type s) = List.length (phase_index s).

(** Every channel of the waveform has the configured window length. *)
Definition waveform_has_window_length self (s : sample) : Prop :=
  Forall (fun ch => len ch = window_length_in_npts self) (data s).

(** The sample has a label, and every row of it has the configured window
    length. *)
Definition label_has_window_length self (s : sample) : Prop :=
  exists l, label s = Some l
            /\ Forall (fun row => len row = window_length_in_npts self) l.

(** The window proposed for index [idx] lies inside every channel of the
    waveform that is cropped. *)
Definition window_fits store self (idx : Z) : Prop :=
  forall smp a b,
    window_proposal store self idx = Ok (smp, a, b) ->
    Forall (fun ch => 0 <= a /\ b <= len ch) (data (apply_transform self smp)).

(** Every entry of the index list names a record of the store that has at
    least one pick and parallel pick lists. *)
Definition well_formed_store store self : Prop :=
  forall e st,
    In (e, st) (index_to_waveform_id self) ->
    exists rec,
      h5_lookup store e st = Ok rec
      /\ attr_phase_index rec <> []
      /\ List.length (attr_phase_type rec) = List.length (attr_phase_index rec).

End Statements.

(** The boundaries as the spec words them: the floor of the cumulative
    ratio times the number of pairs, for the ratios [num0/den] and
    [num1/den] taken as exact fractions. *)
Definition cumulative_floor_boundaries (num0 num1 den n : Z) : Z * Z :=
  ((num0 * n) / den, ((num0 + num1) * n) / den).

(** ** Fixtures: a small store, datasets over it and a pick table *)

Module Fixture.

(** Integer amplitudes, left as they are by the rescaling. *)
Definition int_numerics : Numerics := {|
  amp := Z;
  amp_add := Z.add;
  rescale := fun _ x => x;
  gaussian_bump := fun _ d => if d =? 0 then 1%float else 0%float
|}.

#[local] Existing Instance int_numerics.

(** Two channels of ten samples; P picked at 4 and S at 6. *)
Definition rec_a : waveform_record := {|
  wf_data := [[0; 1; 2; 3; 4; 5; 6; 7; 8; 9];
              [10; 11; 12; 13; 14; 15; 16; 17; 18; 19]];
  attr_network := "XX";
  attr_phase_index := [4; 6];
  attr_phase_type := ["P"; "S"]
|}.

(** The same channels; S picked before P, P picked twice, and a pick of a
    phase outside the canonical list. *)
Definition rec_b : waveform_record := {|
  wf_data := wf_data rec_a;
  attr_network := "XX";
  attr_phase_index := [7; 3; 5; 8];
  attr_phase_type := ["S"; "P"; "Pn"; "P"]
|}.

Definition store : h5file :=
  [("ev1", [("A01", rec_a); ("A02", rec_b)])].

(** The record of the end-to-end scenario of spec 8: one channel of 6000
    samples, P picked at 500 and S at 900. *)
Definition rec_scenario : waveform_record := {|
  wf_data := [repeat 0 (Z.to_nat 6000)];
  attr_network := "XX";
  attr_phase_index := [500; 900];
  attr_phase_type := ["P"; "S"]
|}.

(** The default configuration of [__init__] (window of 4800 samples, first
    arrival at 400) over the scenario record. *)
Definition scenario : Ai4epsDataset := {|
  transform := None;
  label_shape := gaussian;
  label_width_in_npts := 120;
  window_length_in_npts := 4800;
  phases := ["P"; "S"; "PS"];
  first_arrival_index_in_final_window_if_no_shift := 400;
  random_stack_two_waveforms_ratio := 0%float;
  h5py_path := "data/waveform.h5";
  index_to_waveform_id := [("ev9", "B01")]
|}.

Definition ids : list (string * string) := [("ev1", "A01"); ("ev1", "A02")].

(** A dataset with window length [L] and offset [off], stacking with
    probability one half. *)
Definition dataset (hook : option (sample -> sample)) (L off : Z)
  : Ai4epsDataset := {|
  transform := hook;
  label_shape := triangle;
  label_width_in_npts := 2;
  window_length_in_npts := L;
  phases := ["P"; "S"; "PS"];
  first_arrival_index_in_final_window_if_no_shift := off;
  random_stack_two_waveforms_ratio := 0.5%float;
  h5py_path := "data/waveform.h5";
  index_to_waveform_id := ids
|}.

(** A hook that moves the window one sample to the right. *)
Definition jitter (s : sample) : sample :=
  set_bounds s (option_map (Z.add 1) (start_index s))
               (option_map (Z.add 1) (end_index s)).

Definition row (e s : string) (i : Z) (t : string) : pick_row := {|
  row_event_id := e; row_station_id := s; row_phase_index := i;
  row_phase_time := "2020-01-01T00:00:00"; row_phase_score := 1%float;
  row_phase_type := t; row_phase_polarity := "U"
|}.

Definition picks_table : list pick_row :=
  [row "ev1" "A01" 4 "P"; row "ev1" "A01" 6 "S"; row "ev1" "A02" 3 "P";
   row "ev2" "A01" 9 "P"; row "ev1" "A02" 7 "S"; row "ev2" "A03" 2 "P";
   row "ev3" "A01" 5 "P"; row "ev3" "A02" 5 "P"; row "ev3" "A02" 8 "S";
   row "ev4" "A01" 1 "P"; row "ev4" "A02" 1 "P"; row "ev5" "A01" 3 "P";
   row "ev5" "A02" 3 "P"; row "ev5" "A03" 3 "P"].

(** A stand-in for the generator's shuffle: the array reversed, then rotated
    by the seed. *)
Definition rotate (seed : Z) (l : list waveform_id) : list waveform_id :=
  let r := rev l in
  let k := Z.to_nat (seed mod Z.max 1 (len r)) in
  skipn k r ++ firstn k r.

(** The default ratios [0.9, 0.05, 0.05]. *)
Definition default_ratio : list float := [0.9%float; 0.05%float; 0.05%float].

End Fixture.

(** Records at the edges: no pick at all, and more phase types than phase
    indices. *)
Module Edge.

#[local] Existing Instance Fixture.int_numerics.

Definition rec_no_pick : waveform_record := {|
  wf_data := wf_data Fixture.rec_a;
  attr_network := "XX";
  attr_phase_index := [];
  attr_phase_type := []
|}.

Definition rec_ragged : waveform_record := {|
  wf_data := wf_data Fixture.rec_a;
  attr_network := "XX";
  attr_phase_index := [4];
  attr_phase_type := ["Pn"; "S"]
|}.

(** The picks of [Fixture.rec_a] in the other order. *)
Definition rec_a_reordered : waveform_record := {|
  wf_data := wf_data Fixture.rec_a;
  attr_network := "XX";
  attr_phase_index := [6; 4];
  attr_phase_type := ["S"; "P"]
|}.

Definition store : h5file :=
  [("ev1", [("A01", Fixture.rec_a); ("A03", rec_no_pick);
            ("A04", rec_ragged)])].

Definition store_reordered : h5file :=
  [("ev1", [("A01", rec_a_reordered)])].

(** A dataset of five entries: a sound one, one without picks, a ragged
    one, one of an event and one of a station that the store lacks. *)
Definition dataset (ratio : float) : Ai4epsDataset := {|
  transform := None;
  label_shape := triangle;
  label_width_in_npts := 2;
  window_length_in_npts := 4;
  phases := ["P"; "S"; "PS"];
  first_arrival_index_in_final_window_if_no_shift := 2;
  random_stack_two_waveforms_ratio := ratio;
  h5py_path := "data/waveform.h5";
  index_to_waveform_id :=
    [("ev1", "A01"); ("ev1", "A03"); ("ev1", "A04"); ("ev7", "A01");
     ("ev1", "A09")]
|}.

(** The pick table without its last row: ten distinct pairs. *)
Definition ten_pairs : list pick_row := removelast Fixture.picks_table.

(** A file system with the one file [data/waveform.h5]. *)
Definition disk (content : h5file) : filesystem :=
  fun path => if String.eqb path "data/waveform.h5" then Some content else None.

Definition no_file : filesystem := fun _ => None.

End Edge.

(** ** Facts about the Python operations *)

Section PyFacts.
Context {A : Type}.
Implicit Types (l : list A) (i : Z).

Lemma len_nonneg l : 0 <= len l.
Proof. unfold len; lia. Qed.

Lemma getitem_in_range l i :
  0 <= i < len l -> exists a, getitem l i = Ok a /\ nth_error l (Z.to_nat i) = Some a.
Proof.
  intros Hi. unfold getitem, len in *.
  destruct (Z.ltb_spec i 0) as [Hneg|_]; [lia|].
  destruct (Z.ltb_spec i 0) as [Hneg|_]; [lia|].
  destruct (nth_error l (Z.to_nat i)) as [a|] eqn:E.
  - now exists a.
  - apply nth_error_None in E. lia.
Qed.

Lemma getitem_out_of_range l i :
  len l <= i \/ i < - len l -> getitem l i = Raise IndexError.
Proof.
  intros Hi. unfold getitem, len in *.
  destruct (Z.ltb_spec i 0) as [Hneg|Hpos].
  - destruct (Z.ltb_spec (i + Z.of_nat (List.length l)) 0) as [_|H]; [reflexivity|lia].
  - destruct (Z.ltb_spec i 0) as [H|_]; [lia|].
    destruct (nth_error l (Z.to_nat i)) eqn:E; [|reflexivity].
    assert (Hlt : (Z.to_nat i < List.length l)%nat)
      by (apply nth_error_Some; congruence).
    lia.
Qed.

Lemma getitem_negative l i :
  - len l <= i < 0 -> getitem l i = getitem l (i + len l).
Proof.
  intros Hi. unfold getitem.
  destruct (Z.ltb_spec i 0) as [_|H]; [|lia].
  destruct (Z.ltb_spec (i + len l) 0) as [H|_]; [lia|].
  destruct (Z.ltb_spec (i + len l) 0) as [H|_]; [lia|reflexivity].
Qed.

Lemma slice_bound_range n i : 0 <= n -> 0 <= slice_bound n i <= n.
Proof. intros Hn. unfold slice_bound. destruct (Z.ltb_spec i 0); lia. Qed.

Lemma slice_len (a b : Z) l :
  len (slice a b l)
  = Z.max 0 (slice_bound (len l) b - slice_bound (len l) a).
Proof.
  unfold slice.
  pose proof (slice_bound_range (len l) a (len_nonneg l)) as Ha.
  pose proof (slice_bound_range (len l) b (len_nonneg l)) as Hb.
  unfold len in *. rewrite length_firstn, length_skipn. lia.
Qed.

Lemma slice_in_range (a b : Z) l :
  0 <= a -> a <= b -> b <= len l ->
  slice a b l = firstn (Z.to_nat (b - a)) (skipn (Z.to_nat a) l)
  /\ len (slice a b l) = b - a.
Proof.
  intros H0 Hab Hb. split.
  - unfold slice, slice_bound.
    destruct (Z.ltb_spec a 0); [lia|]. destruct (Z.ltb_spec b 0); [lia|].
    now rewrite !Z.min_l by lia.
  - rewrite slice_len. unfold slice_bound.
    destruct (Z.ltb_spec a 0); [lia|]. destruct (Z.ltb_spec b 0); lia.
Qed.

End PyFacts.

Lemma fold_min_le (l : list Z) (x : Z) :
  fold_left Z.min l x <= x /\ forall y, In y l -> fold_left Z.min l x <= y.
Proof.
  revert x. induction l as [|z l IH]; intros x; simpl.
  - split; [lia | intros y []].
  - destruct (IH (Z.min x z)) as [H1 H2]. split; [lia|].
    intros y [->|Hy]; [lia | now apply H2].
Qed.

Lemma fold_min_in (l : list Z) (x : Z) :
  fold_left Z.min l x = x \/ In (fold_left Z.min l x) l.
Proof.
  revert x. induction l as [|z l IH]; intros x; simpl; [now left|].
  destruct (IH (Z.min x z)) as [H|H].
  - rewrite H. destruct (Z.min_spec x z) as [[_ ->]|[_ ->]]; auto.
  - auto.
Qed.

(** [min] returns the least element, and raises on the empty list only. *)
Lemma min_spec (l : list Z) (m : Z) :
  Py.min l = Ok m -> In m l /\ forall y, In y l -> m <= y.
Proof.
  destruct l as [|x l]; simpl; [discriminate|].
  intros [= <-]. destruct (fold_min_le l x) as [H1 H2]. split.
  - destruct (fold_min_in l x) as [->|H]; auto.
  - intros y [<-|Hy]; auto.
Qed.

Lemma min_nonempty (l : list Z) : l <> [] -> exists m, Py.min l = Ok m.
Proof. destruct l; [congruence | simpl; eauto]. Qed.

Lemma map2_diag {X : Type} (f : X -> X -> X) (l : list X) :
  (forall x, f x x = x) -> map2 f l l = l.
Proof. intros Hf. induction l; simpl; congruence. Qed.

Lemma fmax_idem (x : float) : fmax x x = x.
Proof. unfold fmax. now destruct (PrimFloat.ltb x x). Qed.

(** ** The sample construction pipeline *)

Section Pipeline.
Context {N : Numerics}.
Implicit Types (self : Ai4epsDataset) (store : h5file) (s smp : sample).

Lemma getitem_of_nat {A : Type} (l : list A) (k : nat) :
  getitem l (Z.of_nat k)
  = match nth_error l k with Some a => Ok a | None => Raise IndexError end.
Proof.
  unfold getitem.
  destruct (Z.ltb_spec (Z.of_nat k) 0); [lia|].
  destruct (Z.ltb_spec (Z.of_nat k) 0); [lia|].
  now rewrite Nat2Z.id.
Qed.

(** The lookup of lines 106-110, [idxs[types.index(ph)]] under [ph in types],
    finds the first pick of [ph] among the paired lists. *)
Lemma lookup_first_pick (d : Z) (ph : string) (types : list string) (idxs : list Z) :
  List.length types = List.length idxs ->
  (if contains ph types then getitem idxs (Z.of_nat (index ph types)) else Ok d)
  = Ok (match first_pick ph (combine types idxs) with
        | Some v => v
        | None => d
        end).
Proof.
  rewrite getitem_of_nat. unfold first_pick, contains.
  revert idxs. induction types as [|t types IH]; intros [|i idxs] Hlen;
    simpl in *; try discriminate; [reflexivity|].
  destruct (String.eqb ph t); simpl; [reflexivity|].
  apply IH. congruence.
Qed.

Lemma expand_phase_index_ok (phases types : list string) (idxs : list Z) :
  List.length types = List.length idxs ->
  expand_phase_index phases types idxs
  = Ok (map (fun ph => match first_pick ph (combine types idxs) with
                       | Some v => v
                       | None => absent_index
                       end) phases).
Proof.
  intros Hlen. induction phases as [|ph phases IH]; simpl; [reflexivity|].
  rewrite (lookup_first_pick absent_index ph types idxs Hlen), IH.
  reflexivity.
Qed.

Lemma first_pick_shift (ph : string) (types : list string) (idxs : list Z) (start : Z) :
  first_pick ph (combine types (map (fun i => i - start) idxs))
  = option_map (fun v => v - start) (first_pick ph (combine types idxs)).
Proof.
  unfold first_pick. revert idxs.
  induction types as [|t types IH]; intros [|i idxs]; simpl; try reflexivity.
  destruct (String.eqb ph t); simpl; [reflexivity | apply IH].
Qed.

(** Lines 102-111 together: shifting every index by [start] and then
    expanding gives the canonical indices. *)
Lemma expand_shifted (phases types : list string) (idxs : list Z) (start : Z) :
  List.length types = List.length idxs ->
  expand_phase_index phases types (map (fun i => i - start) idxs)
  = Ok (canonical_indices phases (combine types idxs) start).
Proof.
  intros Hlen. rewrite expand_phase_index_ok by now rewrite length_map.
  f_equal. unfold canonical_indices. apply map_ext. intros ph.
  rewrite first_pick_shift. now destruct (first_pick ph (combine types idxs)).
Qed.

(** *** What [window_proposal] returns *)

Lemma window_proposal_inv store self idx smp (a b : Z) :
  window_proposal store self idx = Ok (smp, a, b) ->
  exists e st rec m,
    getitem (index_to_waveform_id self) idx = Ok (e, st)
    /\ h5_lookup store e st = Ok rec
    /\ Py.min (attr_phase_index rec) = Ok m
    /\ a = m - first_arrival_index_in_final_window_if_no_shift self
    /\ b = a + window_length_in_npts self
    /\ smp = set_bounds (sample_of_record e st rec) (Some a) (Some b).
Proof.
  unfold window_proposal. intros H.
  destruct (getitem (index_to_waveform_id self) idx) as [[e st]|] eqn:Ek;
    simpl in H; [|discriminate].
  destruct (h5_lookup store e st) as [rec|] eqn:Er; simpl in H; [|discriminate].
  destruct (Py.min (attr_phase_index rec)) as [m|] eqn:Em; simpl in H;
    [|discriminate].
  injection H as <- <- <-. exists e, st, rec, m. repeat split; auto.
Qed.

Lemma window_proposal_ok store self idx (e st : string) rec (m : Z) :
  getitem (index_to_waveform_id self) idx = Ok (e, st) ->
  h5_lookup store e st = Ok rec ->
  Py.min (attr_phase_index rec) = Ok m ->
  let a := m - first_arrival_index_in_final_window_if_no_shift self in
  let b := a + window_length_in_npts self in
  window_proposal store self idx
  = Ok (set_bounds (sample_of_record e st rec) (Some a) (Some b), a, b).
Proof.
  intros Hk Hr Hm. unfold window_proposal. rewrite Hk. simpl.
  rewrite Hr. simpl. rewrite Hm. reflexivity.
Qed.

(** *** What [get_item_without_stack] returns *)

Lemma get_item_without_stack_ok store self idx smp (a b : Z) :
  window_proposal store self idx = Ok (smp, a, b) ->
  List.length (phase_type (apply_transform self smp))
  = List.length (phase_index (apply_transform self smp)) ->
  get_item_without_stack store self idx
  = Ok (assembled self (apply_transform self smp) a b).
Proof.
  intros Hw Hlen. unfold get_item_without_stack. rewrite Hw. simpl.
  rewrite (expand_shifted _ _ _ a Hlen). reflexivity.
Qed.

(** Whatever [get_item_without_stack] returns was cropped by the slice
    [a:b] of the proposed window and carries a label of the configured
    length. *)
Lemma get_item_without_stack_inv store self idx s :
  get_item_without_stack store self idx = Ok s ->
  exists smp a b idxs,
    window_proposal store self idx = Ok (smp, a, b)
    /\ data s = map normalize_channel
                  (map (slice a b) (data (apply_transform self smp)))
    /\ phase_index s = idxs
    /\ phase_type s = phases self
    /\ label s = Some (generate_label (label_shape self)
                         (label_width_in_npts self)
                         (window_length_in_npts self) idxs).
Proof.
  unfold get_item_without_stack. intros H.
  destruct (window_proposal store self idx) as [[[smp a] b]|] eqn:Hw;
    simpl in H; [|discriminate].
  match type of H with
  | (_ <- ?e ;; _) = _ => destruct e as [idxs|] eqn:He
  end; simpl in H; [|discriminate].
  injection H as <-. exists smp, a, b, idxs. repeat split; reflexivity.
Qed.

End Pipeline.

(** ** Window length of the samples (spec 3 and 8) *)

Section WindowLength.
Context {N : Numerics}.
Implicit Types (self : Ai4epsDataset) (store : h5file) (s smp : sample).

Lemma length_map2 {A B C : Type} (f : A -> B -> C) (l1 : list A) (l2 : list B) :
  List.length (map2 f l1 l2) = Nat.min (List.length l1) (List.length l2).
Proof.
  revert l2. induction l1 as [|a l1 IH]; intros [|b l2]; simpl; auto.
Qed.

Lemma Forall_map2 {A B C : Type} (f : A -> B -> C)
  (P : A -> Prop) (Q : B -> Prop) (R : C -> Prop) (l1 : list A) (l2 : list B) :
  (forall a b, P a -> Q b -> R (f a b)) ->
  Forall P l1 -> Forall Q l2 -> Forall R (map2 f l1 l2).
Proof.
  intros Hf H1. revert l2. induction H1 as [|a l1 Ha _ IH];
    intros l2 H2; simpl; [constructor|].
  destruct H2 as [|b l2 Hb H2]; constructor; auto.
Qed.

Lemma len_map2_same {A B C : Type} (f : A -> B -> C) (L : Z)
  (l1 : list A) (l2 : list B) :
  len l1 = L -> len l2 = L -> len (map2 f l1 l2) = L.
Proof. unfold len. rewrite length_map2. lia. Qed.

Lemma len_label_row (sh : shape) (w L i : Z) :
  0 <= L -> len (label_row sh w L i) = L.
Proof.
  intros HL. unfold label_row, len.
  destruct (i =? absent_index);
    rewrite ?repeat_length, ?length_map, ?length_seq; lia.
Qed.

Lemma len_normalize_channel (ch : list amp) : len (normalize_channel ch) = len ch.
Proof. unfold normalize_channel, len. now rewrite length_map. Qed.

Lemma normalize_waveform_keeps_length self s :
  waveform_has_window_length self s ->
  waveform_has_window_length self (normalize_waveform s).
Proof.
  unfold waveform_has_window_length. simpl. intros H.
  apply Forall_map. eapply Forall_impl; [|exact H].
  intros ch Hch. now rewrite len_normalize_channel.
Qed.

Lemma stack_rand_keeps_length self s1 s2 (w : Z) :
  waveform_has_window_length self s1 ->
  waveform_has_window_length self s2 ->
  waveform_has_window_length self (stack_rand s1 s2 w).
Proof.
  unfold waveform_has_window_length. simpl. intros H1 H2.
  eapply Forall_map2; [|exact H1|exact H2].
  intros r1 r2. apply len_map2_same.
Qed.

Lemma stack_rand_keeps_label_length self s1 s2 (w : Z) :
  label_has_window_length self s1 ->
  label_has_window_length self s2 ->
  label_has_window_length self (stack_rand s1 s2 w).
Proof.
  intros (l1 & E1 & H1) (l2 & E2 & H2). unfold label_has_window_length.
  simpl. rewrite E1, E2. eexists; split; [reflexivity|].
  eapply Forall_map2; [|exact H1|exact H2].
  intros r1 r2. apply len_map2_same.
Qed.

Lemma get_item_without_stack_label_length store self idx s :
  0 <= window_length_in_npts self ->
  get_item_without_stack store self idx = Ok s ->
  label_has_window_length self s.
Proof.
  intros HL H.
  destruct (get_item_without_stack_inv _ _ _ _ H)
    as (smp & a & b & idxs & _ & _ & _ & _ & Hlab).
  eexists; split; [exact Hlab|].
  unfold generate_label. apply Forall_map, Forall_forall.
  intros i _. now apply len_label_row.
Qed.

Lemma get_item_without_stack_waveform_length store self idx s :
  0 <= window_length_in_npts self ->
  window_fits store self idx ->
  get_item_without_stack store self idx = Ok s ->
  waveform_has_window_length self s.
Proof.
  intros HL Hfits H.
  destruct (get_item_without_stack_inv _ _ _ _ H)
    as (smp & a & b & idxs & Hw & Hdata & _).
  specialize (Hfits _ _ _ Hw).
  destruct (window_proposal_inv _ _ _ _ _ _ Hw)
    as (e & st & rec & m & _ & _ & _ & _ & Hb & _).
  unfold waveform_has_window_length. rewrite Hdata.
  apply Forall_map, Forall_map. eapply Forall_impl; [|exact Hfits].
  intros ch [Ha Hch]. rewrite len_normalize_channel.
  destruct (slice_in_range a b ch) as [_ ->]; lia.
Qed.

(** C1 (as amended).  Every sample that [__getitem__] returns has a label
    whose rows have exactly [window_length_in_npts] samples; its waveform
    has exactly [window_length_in_npts] samples per channel provided the
    proposed window lies inside the waveform that is cropped, for the
    requested record and, when stacking is applied, for the stacking partner
    as well.  The window length is a non-negative field of the dataset. *)
Theorem getitem_window_length store self (idx : Z) (u : float) (random_idx : Z) s :
  0 <= window_length_in_npts self ->
  __getitem__ store self idx u random_idx = Ok s ->
  label_has_window_length self s
  /\ (window_fits store self idx ->
      (PrimFloat.ltb u (random_stack_two_waveforms_ratio self) = true ->
       window_fits store self random_idx) ->
      waveform_has_window_length self s).
Proof.
  intros HL H. unfold __getitem__ in H.
  destruct (get_item_without_stack store self idx) as [s1|] eqn:E1;
    simpl in H; [|discriminate].
  pose proof (get_item_without_stack_label_length _ _ _ _ HL E1) as Hl1.
  destruct (PrimFloat.ltb u (random_stack_two_waveforms_ratio self)) eqn:Eu.
  - destruct (get_item_without_stack store self random_idx) as [s2|] eqn:E2;
      simpl in H; [|discriminate].
    injection H as <-.
    pose proof (get_item_without_stack_label_length _ _ _ _ HL E2) as Hl2.
    split.
    + exact (stack_rand_keeps_label_length self s1 s2 _ Hl1 Hl2).
    + intros F1 F2. apply (normalize_waveform_keeps_length self).
      apply stack_rand_keeps_length.
      * exact (get_item_without_stack_waveform_length _ _ _ _ HL F1 E1).
      * exact (get_item_without_stack_waveform_length _ _ _ _ HL (F2 eq_refl) E2).
  - simpl in H. injection H as <-. split.
    + exact Hl1.
    + intros F1 _. apply (normalize_waveform_keeps_length self).
      exact (get_item_without_stack_waveform_length _ _ _ _ HL F1 E1).
Qed.

End WindowLength.

(** ** Window bounds and phase indices (spec 4.1, 4.2 and 4.6) *)

Section Window.
Context {N : Numerics}.
Implicit Types (self : Ai4epsDataset) (store : h5file) (s smp : sample).

(** The first pick of a phase, read off the two parallel lists. *)
Lemma first_pick_spec (ph : string) (types : list string) (idxs : list Z) :
  List.length types = List.length idxs ->
  match first_pick ph (combine types idxs) with
  | None => ~ In ph types
  | Some raw =>
      exists j, nth_error types j = Some ph
                /\ nth_error idxs j = Some raw
                /\ forall j', (j' < j)%nat -> nth_error types j' <> Some ph
  end.
Proof.
  unfold first_pick. revert idxs.
  induction types as [|t types IH]; intros [|i idxs] Hlen; simpl in *;
    try discriminate; [tauto|].
  destruct (String.eqb_spec ph t) as [->|Hne]; simpl.
  - exists O. simpl. repeat split; auto. intros j' Hj'. lia.
  - specialize (IH idxs ltac:(congruence)).
    destruct (find _ (combine types idxs)) as [[t' v]|]; simpl in *.
    + destruct IH as (j & Ht & Hi & Hfirst). exists (S j). simpl.
      repeat split; auto. intros [|j'] Hj'; simpl.
      * congruence.
      * apply Hfirst. lia.
    + intros [->|Hin]; [congruence | auto].
Qed.

Lemma find_filter {A : Type} (p q : A -> bool) (l : list A) :
  (forall x, p x = true -> q x = true) -> find p (filter q l) = find p l.
Proof.
  intros Hpq. induction l as [|x l IH]; simpl; [reflexivity|].
  destruct (q x) eqn:Eq; simpl.
  - now rewrite IH.
  - destruct (p x) eqn:Ep; [|exact IH]. rewrite (Hpq x Ep) in Eq. discriminate.
Qed.

Lemma contains_true (ph : string) (l : list string) :
  In ph l -> contains ph l = true.
Proof.
  intros Hin. apply existsb_exists. exists ph. split; [exact Hin|].
  apply String.eqb_refl.
Qed.

(** Picks of phases outside the canonical list play no part in the
    canonical indices. *)
Lemma canonical_indices_filter (phases : list string)
  (picks : list (string * Z)) (start : Z) :
  canonical_indices phases
    (filter (fun p => contains (fst p) phases) picks) start
  = canonical_indices phases picks start.
Proof.
  unfold canonical_indices. apply map_ext_in. intros ph Hph.
  unfold first_pick. rewrite find_filter; [reflexivity|].
  intros [t v] Heq. simpl in *. apply String.eqb_eq in Heq. subst t.
  now apply contains_true.
Qed.

Lemma Forall2_map_self {A B : Type} (f : A -> B) (R : A -> B -> Prop) (l : list A) :
  (forall x, In x l -> R x (f x)) -> Forall2 R l (map f l).
Proof.
  induction l as [|x l IH]; intros H; simpl; constructor.
  - apply H. now left.
  - apply IH. intros y Hy. apply H. now right.
Qed.

(** C2.  For a record with a non-empty pick list and no transform
    configured, the window is [start = r - offset], [end = start +
    window_length] with [r] the least raw arrival index; the data returned
    is the slice [start:end] of every channel (rescaled channel by channel
    by the closing [normalize_waveform]), which inside the waveform is the
    run of [window_length] samples from position [start]; and the earliest
    arrival sits [offset] samples after the window start. *)
Theorem window_bounds_without_transform store self (idx : Z) (e st : string)
  (rec : waveform_record) :
  transform self = None ->
  getitem (index_to_waveform_id self) idx = Ok (e, st) ->
  h5_lookup store e st = Ok rec ->
  attr_phase_index rec <> [] ->
  List.length (attr_phase_type rec) = List.length (attr_phase_index rec) ->
  exists r start s,
    (In r (attr_phase_index rec)
     /\ forall i, In i (attr_phase_index rec) -> r <= i)
    /\ start = r - first_arrival_index_in_final_window_if_no_shift self
    /\ get_item_without_stack store self idx = Ok s
    /\ start_index s = Some start
    /\ end_index s = Some (start + window_length_in_npts self)
    /\ data s = map normalize_channel
                  (map (slice start (start + window_length_in_npts self))
                       (wf_data rec))
    /\ (forall ch : list amp, 0 <= start -> 0 <= window_length_in_npts self ->
                   start + window_length_in_npts self <= len ch ->
                   slice start (start + window_length_in_npts self) ch
                   = firstn (Z.to_nat (window_length_in_npts self))
                            (skipn (Z.to_nat start) ch))
    /\ r - start = first_arrival_index_in_final_window_if_no_shift self.
Proof.
  intros Hnone Hk Hrec Hne Hlen.
  destruct (min_nonempty _ Hne) as [m Hm].
  pose proof (window_proposal_ok store self idx e st rec m Hk Hrec Hm) as Hw.
  cbv zeta in Hw.
  assert (Hhook : forall x, apply_transform self x = x)
    by (intros x; unfold apply_transform; now rewrite Hnone).
  pose proof (get_item_without_stack_ok store self idx _ _ _ Hw) as Hget.
  rewrite Hhook in Hget. specialize (Hget Hlen).
  exists m, (m - first_arrival_index_in_final_window_if_no_shift self).
  eexists. split; [exact (min_spec _ _ Hm)|].
  split; [reflexivity|]. split; [exact Hget|]. simpl.
  repeat split; try reflexivity; try lia.
  intros ch H0 HL Hfit.
  destruct (slice_in_range
              (m - first_arrival_index_in_final_window_if_no_shift self)
              (m - first_arrival_index_in_final_window_if_no_shift self
               + window_length_in_npts self) ch) as [-> _]; try lia.
  do 2 f_equal. lia.
Qed.

(** C3.  The phase index vector returned has one entry per canonical phase,
    in the order of the canonical list: the window-local index (raw index
    minus window start) of a pick of that phase when the picks have one,
    the absent index otherwise.  Picks of phases outside the canonical list
    leave no trace: the vector is the one obtained from the canonical picks
    alone. *)
Theorem phase_index_in_canonical_order store self (idx : Z) smp (a b : Z) :
  window_proposal store self idx = Ok (smp, a, b) ->
  parallel_picks (apply_transform self smp) ->
  exists s,
    get_item_without_stack store self idx = Ok s
    /\ phase_type s = phases self
    /\ List.length (phase_index s) = List.length (phases self)
    /\ (forall k ph,
          nth_error (phases self) k = Some ph ->
          (~ In ph (phase_type (apply_transform self smp)) ->
           nth_error (phase_index s) k = Some absent_index)
          /\ (In ph (phase_type (apply_transform self smp)) ->
              exists j raw,
                nth_error (phase_type (apply_transform self smp)) j = Some ph
                /\ nth_error (phase_index (apply_transform self smp)) j
                   = Some raw
                /\ nth_error (phase_index s) k = Some (raw - a)))
    /\ phase_index s
       = canonical_indices (phases self)
           (filter (fun p => contains (fst p) (phases self))
                   (picks_of (apply_transform self smp))) a.
Proof.
  intros Hw Hlen. eexists. split; [exact (get_item_without_stack_ok _ _ _ _ _ _ Hw Hlen)|].
  simpl. split; [reflexivity|].
  split; [unfold canonical_indices; now rewrite length_map|].
  split; [|now rewrite canonical_indices_filter].
  intros k ph Hk. unfold canonical_indices.
  rewrite nth_error_map, Hk. simpl. unfold picks_of.
  pose proof (first_pick_spec ph _ _ Hlen) as Hfp.
  destruct (first_pick ph _) as [raw|].
  - destruct Hfp as (j & Ht & Hi & _). split.
    + intros Hnot. exfalso. apply Hnot. eapply nth_error_In; eassumption.
    + intros _. now exists j, raw.
  - split; [reflexivity | tauto].
Qed.

(** C10.  When the picks hold the same canonical phase more than once, the
    index emitted for it is the window-local index of its first occurrence
    in the order of the picks. *)
Theorem first_occurrence_wins store self (idx : Z) smp (a b : Z)
  (ph : string) (k j : nat) (raw : Z) :
  window_proposal store self idx = Ok (smp, a, b) ->
  parallel_picks (apply_transform self smp) ->
  nth_error (phases self) k = Some ph ->
  nth_error (phase_type (apply_transform self smp)) j = Some ph ->
  (forall j', (j' < j)%nat ->
              nth_error (phase_type (apply_transform self smp)) j' <> Some ph) ->
  nth_error (phase_index (apply_transform self smp)) j = Some raw ->
  exists s,
    get_item_without_stack store self idx = Ok s
    /\ nth_error (phase_index s) k = Some (raw - a).
Proof.
  intros Hw Hlen Hk Hj Hfirst Hraw.
  eexists. split; [exact (get_item_without_stack_ok _ _ _ _ _ _ Hw Hlen)|].
  simpl. unfold canonical_indices. rewrite nth_error_map, Hk. simpl.
  unfold picks_of. pose proof (first_pick_spec ph _ _ Hlen) as Hfp.
  destruct (first_pick ph _) as [raw0|].
  - destruct Hfp as (j0 & Ht0 & Hi0 & Hfirst0).
    assert (j0 = j).
    { destruct (Nat.lt_trichotomy j0 j) as [Hlt|[Heq|Hgt]]; [|exact Heq|].
      - exfalso. exact (Hfirst j0 Hlt Ht0).
      - exfalso. exact (Hfirst0 j Hgt Hj). }
    subst j0. congruence.
  - exfalso. apply Hfp. eapply nth_error_In; eassumption.
Qed.

(** C4 (as amended).  With a transform configured, the crop and the shift
    of the phase indices work on the waveform and the picks that the
    transform returned, with the bounds proposed before it ran, which are
    the bounds it received under the keys [start_index] and [end_index];
    the bounds found under these keys afterwards are handed on untouched in
    the sample that [get_item_without_stack] returns. *)
Theorem crop_uses_proposed_bounds store self (idx : Z) smp (a b : Z)
  (hook : sample -> sample) :
  transform self = Some hook ->
  window_proposal store self idx = Ok (smp, a, b) ->
  parallel_picks (hook smp) ->
  (start_index smp = Some a /\ end_index smp = Some b)
  /\ exists s,
       get_item_without_stack store self idx = Ok s
       /\ data s = map normalize_channel (map (slice a b) (data (hook smp)))
       /\ phase_index s = canonical_indices (phases self) (picks_of (hook smp)) a
       /\ start_index s = start_index (hook smp)
       /\ end_index s = end_index (hook smp).
Proof.
  intros Hhook Hw Hlen.
  assert (Happ : apply_transform self smp = hook smp)
    by (unfold apply_transform; now rewrite Hhook).
  split.
  - destruct (window_proposal_inv _ _ _ _ _ _ Hw)
      as (e & st & rec & m & _ & _ & _ & _ & _ & ->). now split.
  - rewrite <- Happ in Hlen. eexists.
    split; [exact (get_item_without_stack_ok _ _ _ _ _ _ Hw Hlen)|].
    rewrite Happ. simpl. repeat split; reflexivity.
Qed.

(** C5 (as amended).  A window that starts before the waveform or ends
    after it is not an error: the crop is a Python slice, which reads a
    negative bound from the end of the channel and clamps both bounds to
    the channel, so the sample is returned with however many samples the
    slice holds; a window that starts inside a channel and ends after it is
    cut short to fewer than [window_length_in_npts] samples. *)
Theorem out_of_range_window_is_sliced store self (idx : Z) smp (a b : Z) :
  window_proposal store self idx = Ok (smp, a, b) ->
  parallel_picks (apply_transform self smp) ->
  a < 0 \/ Exists (fun ch => len ch < b) (data (apply_transform self smp)) ->
  exists s,
    get_item_without_stack store self idx = Ok s
    /\ data s = map normalize_channel
                  (map (slice a b) (data (apply_transform self smp)))
    /\ Forall2
         (fun raw ch =>
            len ch = Z.max 0 (slice_bound (len raw) b - slice_bound (len raw) a)
            /\ (0 <= a <= len raw -> len raw < b ->
                len ch = len raw - a
                /\ len ch < window_length_in_npts self))
         (data (apply_transform self smp)) (data s).
Proof.
  intros Hw Hlen _. eexists.
  split; [exact (get_item_without_stack_ok _ _ _ _ _ _ Hw Hlen)|].
  simpl. split; [reflexivity|]. rewrite map_map.
  apply Forall2_map_self. intros raw _.
  rewrite len_normalize_channel, slice_len. split; [reflexivity|].
  intros Ha Hb.
  destruct (window_proposal_inv _ _ _ _ _ _ Hw)
    as (e & st & rec & m & _ & _ & _ & _ & Hab & _).
  unfold slice_bound.
  destruct (Z.ltb_spec a 0); [lia|]. destruct (Z.ltb_spec b 0); lia.
Qed.

End Window.

(** ** Construction, stacking and indexing (spec 4.4, 4.6 and 7) *)

Section Dataset.
Context {N : Numerics}.
Implicit Types (self : Ai4epsDataset) (store : h5file) (s : sample).

(** C6 (as amended).  Constructing a dataset never fails and checks
    nothing: whatever the offset and the window length, also with the
    offset at or beyond the window length, [__init__] stores its arguments
    as they are. *)
Theorem init_stores_its_arguments (data_dir : string)
  (ids : list (string * string)) (hook : option (sample -> sample))
  (sh : shape) (w L : Z) (phs : list string) (off : Z) (ratio : float) :
  exists self,
    __init__ data_dir ids hook sh w L phs off ratio = Ok self
    /\ window_length_in_npts self = L
    /\ first_arrival_index_in_final_window_if_no_shift self = off
    /\ transform self = hook /\ label_shape self = sh
    /\ label_width_in_npts self = w /\ phases self = phs
    /\ random_stack_two_waveforms_ratio self = ratio
    /\ index_to_waveform_id self = ids.
Proof. eexists. split; [reflexivity|]. simpl. repeat split. Qed.

(** C7.  Stacking a sample with itself leaves its label unchanged: the
    label curves are combined by the elementwise maximum. *)
Theorem stack_rand_self_label s (label_width : Z) :
  label (stack_rand s s label_width) = label s.
Proof.
  simpl. destruct (label s) as [l|]; [|reflexivity].
  f_equal. apply map2_diag. intros row. apply map2_diag. exact fmax_idem.
Qed.

(** C8 (as amended).  An index at or beyond [len(self)], or below
    [-len(self)], fails with IndexError; in particular the index
    [len(self)] does.  An index in [-len(self), 0) does not fail for being
    out of range: it addresses the entry [idx + len(self)], counting from
    the end of the index list. *)
Theorem getitem_index_range store self (idx : Z) (u : float) (random_idx : Z) :
  (__len__ self <= idx \/ idx < - __len__ self ->
   __getitem__ store self idx u random_idx = Raise IndexError)
  /\ __getitem__ store self (__len__ self) u random_idx = Raise IndexError
  /\ (- __len__ self <= idx < 0 ->
      __getitem__ store self idx u random_idx
      = __getitem__ store self (idx + __len__ self) u random_idx).
Proof.
  assert (Hout : forall i, __len__ self <= i \/ i < - __len__ self ->
                 __getitem__ store self i u random_idx = Raise IndexError).
  { intros i Hi. unfold __getitem__, get_item_without_stack, window_proposal.
    rewrite (getitem_out_of_range _ _ Hi). reflexivity. }
  split; [apply Hout|]. split; [apply Hout; lia|].
  intros Hi. unfold __getitem__, get_item_without_stack, window_proposal.
  unfold __len__ in *. now rewrite (getitem_negative _ _ Hi).
Qed.

End Dataset.

(** ** The train/test/validation split (spec 4.7) *)

Lemma waveform_id_eqb_spec (a b : waveform_id) :
  reflect (a = b) (waveform_id_eqb a b).
Proof.
  destruct a as [e1 s1], b as [e2 s2]. unfold waveform_id_eqb. simpl.
  destruct (String.eqb_spec e1 e2) as [->|He];
    destruct (String.eqb_spec s1 s2) as [->|Hs]; simpl; constructor; congruence.
Qed.

Lemma drop_duplicates_In (l : list waveform_id) (k : waveform_id) :
  In k (drop_duplicates l) <-> In k l.
Proof.
  induction l as [|x l IH]; simpl; [tauto|].
  rewrite filter_In, IH. split.
  - intros [H|[H _]]; auto.
  - intros [H|H]; [now left|].
    destruct (waveform_id_eqb_spec x k) as [E|E]; [now left|right; auto].
Qed.

Lemma drop_duplicates_NoDup (l : list waveform_id) : NoDup (drop_duplicates l).
Proof.
  induction l as [|x l IH]; simpl; constructor.
  - rewrite filter_In. intros [_ H].
    destruct (waveform_id_eqb_spec x x); [discriminate | congruence].
  - now apply NoDup_filter.
Qed.

(** [np.split] at any two indices: the sub-arrays are the first [lo]
    elements, the run from [lo] to [hi] and the elements from [hi] on, for
    the indices read as slice bounds [lo] and [hi]. *)
Lemma np_split_shape {A : Type} (a : list A) (i j : Z) :
  np_split a i j
  = (firstn (Z.to_nat (slice_bound (len a) i)) a,
     firstn (Z.to_nat (slice_bound (len a) j - slice_bound (len a) i))
            (skipn (Z.to_nat (slice_bound (len a) i)) a),
     skipn (Z.to_nat (slice_bound (len a) j)) a).
Proof.
  pose proof (len_nonneg a) as Hn.
  pose proof (slice_bound_range (len a) j Hn) as Hj.
  assert (B0 : slice_bound (len a) 0 = 0)
    by (unfold slice_bound; destruct (Z.ltb_spec 0 0); lia).
  assert (Bn : slice_bound (len a) (len a) = len a)
    by (unfold slice_bound; destruct (Z.ltb_spec (len a) 0); lia).
  unfold np_split, slice. rewrite B0, Bn, Z.sub_0_r. simpl skipn.
  f_equal. apply firstn_all2. rewrite length_skipn. unfold len in *. lia.
Qed.

Lemma In_firstn_skipn {A : Type} (n : nat) (l : list A) (x : A) :
  In x l <-> In x (firstn n l) \/ In x (skipn n l).
Proof. rewrite <- in_app_iff. now rewrite firstn_skipn. Qed.

Lemma skipn_In_le {A : Type} (p q : nat) (l : list A) (x : A) :
  (p <= q)%nat -> In x (skipn q l) -> In x (skipn p l).
Proof.
  intros Hpq Hx. replace q with ((q - p) + p)%nat in Hx by lia.
  rewrite <- skipn_skipn in Hx.
  apply (proj2 (In_firstn_skipn (q - p) (skipn p l) x)). now right.
Qed.

(** The three sub-arrays always cover the array; they repeat no element
    exactly when the bounds are in order. *)
Lemma np_split_cover {A : Type} (a : list A) (i j : Z) (x : A) :
  let '(tr, te, va) := np_split a i j in
  In x (tr ++ te ++ va) <-> In x a.
Proof.
  rewrite np_split_shape.
  pose proof (slice_bound_range (len a) i (len_nonneg a)) as Hi.
  pose proof (slice_bound_range (len a) j (len_nonneg a)) as Hj.
  set (lo := Z.to_nat (slice_bound (len a) i)).
  set (hi := Z.to_nat (slice_bound (len a) j)).
  rewrite !in_app_iff. split.
  - intros [H|[H|H]].
    + apply (In_firstn_skipn lo a x). now left.
    + apply (In_firstn_skipn lo a x). right.
      apply (In_firstn_skipn
               (Z.to_nat (slice_bound (len a) j - slice_bound (len a) i))
               (skipn lo a) x). now left.
    + apply (In_firstn_skipn hi a x). now right.
  - intros H. apply (In_firstn_skipn lo a x) in H. destruct H as [H|H];
      [now left|]. right.
    destruct (Nat.le_gt_cases lo hi) as [Hle|Hgt].
    + apply (In_firstn_skipn (hi - lo) (skipn lo a) x) in H.
      destruct H as [H|H].
      * left. replace (Z.to_nat (slice_bound (len a) j - slice_bound (len a) i))
          with (hi - lo)%nat by (subst lo hi; lia). exact H.
      * right. rewrite skipn_skipn in H.
        replace (hi - lo + lo)%nat with hi in H by lia. exact H.
    + right. apply (skipn_In_le hi lo); [lia | exact H].
Qed.

Lemma np_split_ordered {A : Type} (a : list A) (i j : Z) :
  slice_bound (len a) i <= slice_bound (len a) j ->
  let '(tr, te, va) := np_split a i j in tr ++ te ++ va = a.
Proof.
  intros Hle. rewrite np_split_shape.
  pose proof (slice_bound_range (len a) i (len_nonneg a)) as Hi.
  set (lo := Z.to_nat (slice_bound (len a) i)).
  set (hi := Z.to_nat (slice_bound (len a) j)).
  replace (Z.to_nat (slice_bound (len a) j - slice_bound (len a) i))
    with (hi - lo)%nat by (subst lo hi; lia).
  replace (skipn hi a) with (skipn (hi - lo) (skipn lo a))
    by (rewrite skipn_skipn; f_equal; subst lo hi; lia).
  now rewrite firstn_skipn, firstn_skipn.
Qed.

Lemma np_split_unordered {A : Type} (a : list A) (i j : Z) :
  slice_bound (len a) j < slice_bound (len a) i ->
  let '(tr, te, va) := np_split a i j in
  te = [] /\ exists x, In x tr /\ In x va.
Proof.
  intros Hlt. rewrite np_split_shape.
  pose proof (slice_bound_range (len a) i (len_nonneg a)) as Hi.
  pose proof (slice_bound_range (len a) j (len_nonneg a)) as Hj.
  set (lo := Z.to_nat (slice_bound (len a) i)).
  set (hi := Z.to_nat (slice_bound (len a) j)).
  replace (Z.to_nat (slice_bound (len a) j - slice_bound (len a) i))
    with O by lia.
  split; [reflexivity|].
  destruct (nth_error a hi) as [x|] eqn:Ex;
    [|apply nth_error_None in Ex; subst lo hi; unfold len in *; lia].
  exists x. split.
  - apply (nth_error_In _ hi). rewrite nth_error_firstn.
    destruct (Nat.ltb_spec hi lo); [exact Ex | subst lo hi; lia].
  - apply (nth_error_In _ O). rewrite nth_error_skipn.
    now rewrite Nat.add_0_r.
Qed.

Section SplitterFacts.

Variable shuffle : Z -> list waveform_id -> list waveform_id.

(** The generator's shuffle rearranges the array: it neither drops nor
    repeats an element. *)
Hypothesis shuffle_permutes :
  forall (seed : Z) (l : list waveform_id), Permutation (shuffle seed l) l.

(** C9 (as amended).  A negative seed raises ValueError.  For a seed that
    is not negative, whatever the pick table, with [n] the number of its
    distinct (event_id, station_id) pairs and the boundaries
    [i = int(ratio[0]*n)] and [j = int((ratio[0]+ratio[1])*n)] computed in
    binary64 arithmetic (rounded sum and product, truncated towards zero),
    the splitter returns three lists whose union is exactly the set of the
    pairs of the table, of sizes [lo], [max(0, hi - lo)] and [n - hi] for
    [i] and [j] read as slice bounds [lo] and [hi] (the last list takes the
    remainder); the lists are pairwise disjoint and free of repetitions
    exactly when [lo <= hi], as for cumulative boundaries [0 <= i <= j],
    where the sizes are [min(i,n)], [min(j,n) - min(i,n)] and
    [n - min(j,n)] and the three lists are consecutive runs of the shuffled
    pairs; and the result depends on the seed, the ratios and the id
    columns of the table only. *)
Theorem split_is_a_seeded_partition (phase_picks : list pick_row)
  (r0 r1 : float) (rest : list float) (seed : Z) :
  (seed < 0 ->
   split_train_test_val_for_ai4eps shuffle phase_picks (r0 :: r1 :: rest) seed
   = Raise ValueError)
  /\ forall i j : Z,
       0 <= seed ->
       int_of_float
         (r0 * float_of_int (len (drop_duplicates (id_columns phase_picks))))
       = Ok i ->
       int_of_float
         ((r0 + r1)
          * float_of_int (len (drop_duplicates (id_columns phase_picks))))
       = Ok j ->
       exists train test val,
         split_train_test_val_for_ai4eps shuffle phase_picks
           (r0 :: r1 :: rest) seed = Ok (train, test, val)
         /\ (forall k, In k (train ++ test ++ val)
                       <-> In k (id_columns phase_picks))
         /\ len train
            = slice_bound (len (drop_duplicates (id_columns phase_picks))) i
         /\ len test
            = Z.max 0
                (slice_bound (len (drop_duplicates (id_columns phase_picks))) j
                 - slice_bound
                     (len (drop_duplicates (id_columns phase_picks))) i)
         /\ len val
            = len (drop_duplicates (id_columns phase_picks))
              - slice_bound (len (drop_duplicates (id_columns phase_picks))) j
         /\ (NoDup (train ++ test ++ val)
             <-> slice_bound (len (drop_duplicates (id_columns phase_picks))) i
                 <= slice_bound
                      (len (drop_duplicates (id_columns phase_picks))) j)
         /\ (0 <= i <= j ->
             train ++ test ++ val
             = shuffle seed (drop_duplicates (id_columns phase_picks))
             /\ len train
                = Z.min i (len (drop_duplicates (id_columns phase_picks)))
             /\ len test
                = Z.min j (len (drop_duplicates (id_columns phase_picks)))
                  - Z.min i (len (drop_duplicates (id_columns phase_picks)))
             /\ len val
                = len (drop_duplicates (id_columns phase_picks))
                  - Z.min j (len (drop_duplicates (id_columns phase_picks))))
         /\ forall phase_picks',
              id_columns phase_picks' = id_columns phase_picks ->
              split_train_test_val_for_ai4eps shuffle phase_picks'
                (r0 :: r1 :: rest) seed = Ok (train, test, val).
Proof.
  split.
  { intros Hneg. unfold split_train_test_val_for_ai4eps, default_rng.
    destruct (Z.ltb_spec seed 0); [reflexivity | lia]. }
  intros i j Hseed Hi Hj.
  set (unique := drop_duplicates (id_columns phase_picks)) in *.
  pose proof (shuffle_permutes seed unique) as Hperm.
  assert (Hlen : len (shuffle seed unique) = len unique)
    by (unfold len; now rewrite (Permutation_length Hperm)).
  set (arr := shuffle seed unique) in *.
  assert (Hrun : split_train_test_val_for_ai4eps shuffle phase_picks
                   (r0 :: r1 :: rest) seed = Ok (np_split arr i j)).
  { unfold split_train_test_val_for_ai4eps, default_rng. fold unique.
    destruct (Z.ltb_spec seed 0); [lia|]. simpl. fold arr.
    unfold split_indices. rewrite Hlen.
    change (getitem (r0 :: r1 :: rest) 0) with (Ok r0).
    change (getitem (r0 :: r1 :: rest) 1) with (Ok r1).
    simpl. rewrite Hi. simpl. rewrite Hj. reflexivity. }
  pose proof (np_split_cover arr i j) as Hcover.
  pose proof (np_split_ordered arr i j) as Hord.
  pose proof (np_split_unordered arr i j) as Hunord.
  pose proof (slice_len 0 i arr) as Ltr.
  pose proof (slice_len i j arr) as Lte.
  pose proof (slice_len j (len arr) arr) as Lva.
  pose proof (len_nonneg arr) as Hn.
  assert (B0 : slice_bound (len arr) 0 = 0)
    by (unfold slice_bound; destruct (Z.ltb_spec 0 0); lia).
  assert (Bn : slice_bound (len arr) (len arr) = len arr)
    by (unfold slice_bound; destruct (Z.ltb_spec (len arr) 0); lia).
  pose proof (slice_bound_range (len arr) i (len_nonneg arr)) as Ri.
  pose proof (slice_bound_range (len arr) j (len_nonneg arr)) as Rj.
  rewrite B0 in Ltr. rewrite Bn in Lva.
  unfold np_split in Hrun, Hcover, Hord, Hunord.
  set (train := slice 0 i arr) in *.
  set (test := slice i j arr) in *.
  set (val := slice j (len arr) arr) in *.
  assert (Hnd : NoDup arr)
    by (apply (Permutation_NoDup (Permutation_sym Hperm)),
          drop_duplicates_NoDup).
  rewrite Hlen in *.
  exists train, test, val.
  split; [exact Hrun|].
  split.
  { intros k. rewrite (Hcover k).
    rewrite <- (drop_duplicates_In (id_columns phase_picks) k). fold unique.
    split; intros Hk.
    - exact (Permutation_in k Hperm Hk).
    - exact (Permutation_in k (Permutation_sym Hperm) Hk). }
  split; [lia|]. split; [lia|]. split; [lia|].
  split.
  { split.
    - intros Hnodup.
      destruct (Z_le_gt_dec (slice_bound (len unique) i)
                            (slice_bound (len unique) j)) as [Hle|Hgt];
        [exact Hle|]. exfalso.
      destruct (Hunord ltac:(lia)) as (Hte & x & Hxt & Hxv).
      rewrite Hte in Hnodup. simpl in Hnodup.
      clear - Hnodup Hxt Hxv.
      induction train as [|y train IH]; [contradiction|].
      simpl in Hnodup. inversion Hnodup as [|? ? Hnot Hrest]. subst.
      destruct Hxt as [->|Hxt].
      + apply Hnot. apply in_or_app. now right.
      + now apply IH.
    - intros Hle. rewrite (Hord Hle). exact Hnd. }
  split.
  { intros Hij.
    assert (Bi : slice_bound (len unique) i = Z.min i (len unique))
      by (unfold slice_bound; destruct (Z.ltb_spec i 0); lia).
    assert (Bj : slice_bound (len unique) j = Z.min j (len unique))
      by (unfold slice_bound; destruct (Z.ltb_spec j 0); lia).
    split; [apply Hord; lia | lia]. }
  intros phase_picks' Hsame.
  unfold split_train_test_val_for_ai4eps in *. rewrite Hsame. exact Hrun.
Qed.

End SplitterFacts.

(** ** Outcomes of an access: errors and samples *)

Section Outcomes.
Context {N : Numerics}.
Implicit Types (self : Ai4epsDataset) (store : h5file) (s smp : sample).

Lemma getitem_raises {A : Type} (l : list A) (i : Z) (e : exn) :
  getitem l i = Raise e -> e = IndexError.
Proof.
  unfold getitem. destruct (_ <? 0); [congruence|].
  destruct (nth_error l _); congruence.
Qed.

Lemma getitem_ok_In {A : Type} (l : list A) (i : Z) (a : A) :
  getitem l i = Ok a -> In a l.
Proof.
  unfold getitem. destruct (_ <? 0); [discriminate|].
  destruct (nth_error l _) eqn:E; [|discriminate].
  intros [= <-]. eapply nth_error_In; eassumption.
Qed.

Lemma getitem_total_in_range {A : Type} (l : list A) (i : Z) :
  - len l <= i < len l -> exists a, getitem l i = Ok a.
Proof.
  intros Hi. destruct (Z.ltb_spec i 0) as [Hneg|Hpos].
  - rewrite getitem_negative by lia.
    destruct (getitem_in_range l (i + len l)) as (a & Ha & _); [lia | eauto].
  - destruct (getitem_in_range l i) as (a & Ha & _); [lia | eauto].
Qed.

Lemma assoc_raises {V : Type} (k : string) (m : list (string * V)) (e : exn) :
  assoc k m = Raise e -> e = KeyError.
Proof.
  induction m as [|[k' v] m IH]; simpl; [congruence|].
  destruct (String.eqb k k'); [discriminate | exact IH].
Qed.

Lemma assoc_miss {V : Type} (k : string) (m : list (string * V)) :
  ~ In k (map fst m) -> assoc k m = Raise KeyError.
Proof.
  induction m as [|[k' v] m IH]; simpl; [reflexivity|]. intros Hnot.
  destruct (String.eqb_spec k k') as [->|_]; [tauto|]. apply IH. tauto.
Qed.

Lemma contains_In (ph : string) (l : list string) :
  contains ph l = true <-> In ph l.
Proof.
  split; [|apply contains_true]. unfold contains. rewrite existsb_exists.
  intros (x & Hx & Heq). apply String.eqb_eq in Heq. now subst.
Qed.

Lemma index_lt_length (ph : string) (l : list string) :
  In ph l -> (index ph l < List.length l)%nat.
Proof.
  induction l as [|t l IH]; simpl; [tauto|]. intros Hin.
  destruct (String.eqb_spec ph t) as [->|Hne]; [lia|].
  destruct Hin as [->|Hin]; [congruence|]. specialize (IH Hin). lia.
Qed.

(** The loop of lines 104-110 raises nothing but IndexError, and returns
    exactly when every canonical phase found among the types has its first
    position inside the list of indices. *)
Lemma expand_phase_index_raises (phases types : list string) (idxs : list Z)
  (e : exn) :
  expand_phase_index phases types idxs = Raise e -> e = IndexError.
Proof.
  induction phases as [|ph phases IH]; simpl; [discriminate|].
  destruct (contains ph types).
  - destruct (getitem idxs _) eqn:E; simpl.
    + destruct (expand_phase_index phases types idxs); simpl;
        [discriminate | intros [= <-]; now apply IH].
    + intros [= <-]. eapply getitem_raises; eassumption.
  - simpl. destruct (expand_phase_index phases types idxs); simpl;
      [discriminate | intros [= <-]; now apply IH].
Qed.

Lemma expand_phase_index_returns (phases types : list string) (idxs : list Z) :
  (exists l, expand_phase_index phases types idxs = Ok l)
  <-> (forall ph, In ph phases -> In ph types ->
                  (index ph types < List.length idxs)%nat).
Proof.
  induction phases as [|ph phases IH]; simpl.
  - split; [intros _ ph [] | eauto].
  - rewrite getitem_of_nat. split.
    + intros [l Hl] ph' [<-|Hin] Hty.
      * rewrite (contains_true _ _ Hty) in Hl.
        destruct (nth_error idxs (index ph types)) eqn:E; [|discriminate].
        apply nth_error_Some. congruence.
      * apply IH; auto.
        destruct (if contains ph types then _ else _); [|discriminate].
        simpl in Hl.
        destruct (expand_phase_index phases types idxs); [eauto|discriminate].
    + intros H.
      destruct (proj2 IH (fun p Hp => H p (or_intror Hp))) as [l ->].
      destruct (contains ph types) eqn:Ec; simpl; [|eauto].
      apply contains_In in Ec.
      pose proof (H ph (or_introl eq_refl) Ec) as Hlt.
      apply nth_error_Some in Hlt.
      destruct (nth_error idxs (index ph types)); [simpl; eauto | congruence].
Qed.

Lemma get_item_without_stack_after_proposal store self idx smp (a b : Z) :
  window_proposal store self idx = Ok (smp, a, b) ->
  get_item_without_stack store self idx
  = (l <- expand_phase_index (phases self)
            (phase_type (apply_transform self smp))
            (map (fun i => i - a) (phase_index (apply_transform self smp))) ;;
     Ok (normalize_waveform
           (set_label
              (set_phase_type
                 (set_phase_index
                    (set_data (apply_transform self smp)
                       (map (slice a b) (data (apply_transform self smp))))
                    l)
                 (phases self))
              (Some (generate_label (label_shape self)
                       (label_width_in_npts self)
                       (window_length_in_npts self) l))))).
Proof.
  intros Hw. unfold get_item_without_stack. rewrite Hw. reflexivity.
Qed.

(** X1.  A waveform id whose event is no group of the store, or whose
    station is no dataset of that group, makes the access raise KeyError,
    with or without stacking. *)
Theorem store_miss_raises_KeyError store self (idx : Z) (e st : string)
  (u : float) (random_idx : Z) :
  getitem (index_to_waveform_id self) idx = Ok (e, st) ->
  ~ In e (map fst store)
  \/ (exists g, assoc e store = Ok g /\ ~ In st (map fst g)) ->
  get_item_without_stack store self idx = Raise KeyError
  /\ __getitem__ store self idx u random_idx = Raise KeyError.
Proof.
  intros Hk Hmiss.
  assert (Hl : h5_lookup store e st = Raise KeyError).
  { unfold h5_lookup. destruct Hmiss as [He|(g & Hg & Hst)].
    - now rewrite (assoc_miss _ _ He).
    - rewrite Hg. simpl. now apply assoc_miss. }
  assert (Hget : get_item_without_stack store self idx = Raise KeyError).
  { unfold get_item_without_stack, window_proposal. rewrite Hk. simpl.
    rewrite Hl. reflexivity. }
  split; [exact Hget|]. unfold __getitem__. now rewrite Hget.
Qed.

(** X2.  A record without any pick makes the access raise ValueError
    (the minimum of an empty list), whatever the transform and the window
    configuration, with or without stacking. *)
Theorem no_pick_raises_ValueError store self (idx : Z) (e st : string)
  (rec : waveform_record) (u : float) (random_idx : Z) :
  getitem (index_to_waveform_id self) idx = Ok (e, st) ->
  h5_lookup store e st = Ok rec ->
  attr_phase_index rec = [] ->
  get_item_without_stack store self idx = Raise ValueError
  /\ __getitem__ store self idx u random_idx = Raise ValueError.
Proof.
  intros Hk Hl Hnil.
  assert (Hget : get_item_without_stack store self idx = Raise ValueError).
  { unfold get_item_without_stack, window_proposal. rewrite Hk. simpl.
    rewrite Hl. simpl. rewrite Hnil. reflexivity. }
  split; [exact Hget|]. unfold __getitem__. now rewrite Hget.
Qed.

(** X3.  Once the window is proposed, [get_item_without_stack] returns a
    sample exactly when every canonical phase that occurs in [phase_type]
    has its first occurrence at a position that [phase_index] has too; a
    canonical phase whose first occurrence lies beyond the end of
    [phase_index] makes it raise IndexError. *)
Theorem sample_or_IndexError store self (idx : Z) smp (a b : Z) :
  window_proposal store self idx = Ok (smp, a, b) ->
  ((exists s, get_item_without_stack store self idx = Ok s)
   <-> (forall ph,
          In ph (phases self) ->
          In ph (phase_type (apply_transform self smp)) ->
          (index ph (phase_type (apply_transform self smp))
           < List.length (phase_index (apply_transform self smp)))%nat))
  /\ (forall ph,
        In ph (phases self) ->
        In ph (phase_type (apply_transform self smp)) ->
        (List.length (phase_index (apply_transform self smp))
         <= index ph (phase_type (apply_transform self smp)))%nat ->
        get_item_without_stack store self idx = Raise IndexError).
Proof.
  intros Hw. rewrite (get_item_without_stack_after_proposal _ _ _ _ _ _ Hw).
  pose proof (expand_phase_index_returns (phases self)
                (phase_type (apply_transform self smp))
                (map (fun i => i - a)
                     (phase_index (apply_transform self smp)))) as Hret.
  rewrite length_map in Hret.
  destruct (expand_phase_index _ _ _) as [l|e] eqn:He; simpl.
  - split.
    + split; [intros _; apply Hret; eauto | eauto].
    + intros ph H1 H2 H3.
      pose proof (proj1 Hret (ex_intro _ l eq_refl) ph H1 H2). lia.
  - rewrite (expand_phase_index_raises _ _ _ _ He). split.
    + split; [intros [s Hs]; discriminate|].
      intros H. destruct (proj2 Hret H) as [l Hl]. discriminate.
    + reflexivity.
Qed.

(** X4.  On a dataset without transform whose index list names only
    records of the store that have a pick and parallel pick lists, every
    index in [-len(self), len(self)) yields a sample, and the sample
    carries a waveform id of the index list. *)
Theorem well_formed_dataset_never_fails store self (idx : Z) :
  transform self = None ->
  well_formed_store store self ->
  - __len__ self <= idx < __len__ self ->
  exists s,
    get_item_without_stack store self idx = Ok s
    /\ In (event_id s, station_id s) (index_to_waveform_id self).
Proof.
  intros Hnone Hwf Hidx.
  destruct (getitem_total_in_range _ _ Hidx) as [[e st] Hk].
  pose proof (getitem_ok_In _ _ _ Hk) as Hin.
  destruct (Hwf e st Hin) as (rec & Hl & Hne & Hpar).
  destruct (min_nonempty _ Hne) as [m Hm].
  pose proof (window_proposal_ok store self idx e st rec m Hk Hl Hm) as Hw.
  cbv zeta in Hw.
  pose proof (get_item_without_stack_ok store self idx _ _ _ Hw) as Hget.
  assert (Hhook : forall x, apply_transform self x = x)
    by (intros x; unfold apply_transform; now rewrite Hnone).
  rewrite Hhook in Hget. eexists. split; [exact (Hget Hpar)|exact Hin].
Qed.

(** X5.  Without transform and with an offset above the absent index
    -999999999, the absent index marks exactly the canonical phases that
    have no pick: the entry of a picked phase is at least the offset, never
    the absent index. *)
Theorem absent_index_marks_absent_phases store self (idx : Z) (e st : string)
  (rec : waveform_record) :
  transform self = None ->
  getitem (index_to_waveform_id self) idx = Ok (e, st) ->
  h5_lookup store e st = Ok rec ->
  attr_phase_index rec <> [] ->
  List.length (attr_phase_type rec) = List.length (attr_phase_index rec) ->
  absent_index < first_arrival_index_in_final_window_if_no_shift self ->
  exists s,
    get_item_without_stack store self idx = Ok s
    /\ Forall2
         (fun ph v =>
            (v = absent_index <-> ~ In ph (attr_phase_type rec))
            /\ (In ph (attr_phase_type rec) ->
                first_arrival_index_in_final_window_if_no_shift self <= v))
         (phases self) (phase_index s).
Proof.
  intros Hnone Hk Hl Hne Hpar Hoff.
  destruct (min_nonempty _ Hne) as [m Hm].
  destruct (min_spec _ _ Hm) as [_ Hleast].
  pose proof (window_proposal_ok store self idx e st rec m Hk Hl Hm) as Hw.
  cbv zeta in Hw.
  pose proof (get_item_without_stack_ok store self idx _ _ _ Hw) as Hget.
  assert (Hhook : forall x, apply_transform self x = x)
    by (intros x; unfold apply_transform; now rewrite Hnone).
  rewrite Hhook in Hget. eexists. split; [exact (Hget Hpar)|].
  simpl. unfold canonical_indices, picks_of. simpl.
  apply Forall2_map_self. intros ph _.
  pose proof (first_pick_spec ph _ _ Hpar) as Hfp.
  destruct (first_pick ph _) as [raw|].
  - destruct Hfp as (j & Ht & Hi & _).
    assert (Hin : In ph (attr_phase_type rec))
      by (eapply nth_error_In; eassumption).
    assert (Hraw : m <= raw) by (apply Hleast; eapply nth_error_In; eassumption).
    split; [split; [lia | tauto] | lia].
  - split; [tauto | intros Hin; tauto].
Qed.

End Outcomes.

(** ** Alignment, stacking draw, handler and pick order *)

Lemma nth_error_slice {A : Type} (a b t : Z) (l : list A) :
  0 <= a -> 0 <= t -> a + t < Z.min b (len l) ->
  nth_error (slice a b l) (Z.to_nat t) = nth_error l (Z.to_nat (a + t)).
Proof.
  intros Ha Ht Hlt. unfold slice, slice_bound.
  destruct (Z.ltb_spec a 0); [lia|]. destruct (Z.ltb_spec b 0); [lia|].
  rewrite nth_error_firstn, nth_error_skipn.
  destruct (Nat.ltb_spec (Z.to_nat t)
              (Z.to_nat (Z.min b (len l) - Z.min a (len l)))) as [_|H1];
    [|lia].
  f_equal. lia.
Qed.

(** A draw of [torch.rand], which is never negative, is not below zero. *)
Lemma ltb_zero_of_nonneg (u : float) :
  PrimFloat.leb 0 u = true -> PrimFloat.ltb u 0 = false.
Proof.
  rewrite leb_spec, ltb_spec.
  change (Prim2SF 0) with (S754_zero false).
  destruct (Prim2SF u) as [[|]|[|]| |[|] m e]; cbv; congruence.
Qed.

Lemma map_snd_combine {A B : Type} (l1 : list A) (l2 : list B) :
  List.length l1 = List.length l2 -> map snd (combine l1 l2) = l2.
Proof.
  revert l2. induction l1 as [|x l1 IH]; intros [|y l2] Hlen; simpl in *;
    try discriminate; [reflexivity|]. f_equal. apply IH. congruence.
Qed.

Lemma map_fst_combine {A B : Type} (l1 : list A) (l2 : list B) :
  List.length l1 = List.length l2 -> map fst (combine l1 l2) = l1.
Proof.
  revert l2. induction l1 as [|x l1 IH]; intros [|y l2] Hlen; simpl in *;
    try discriminate; [reflexivity|]. f_equal. apply IH. congruence.
Qed.

(** [min] does not depend on the order of the list. *)
Lemma min_permutation (l l' : list Z) :
  Permutation l l' -> Py.min l' = Py.min l.
Proof.
  intros Hp. destruct l as [|x l].
  - apply Permutation_nil in Hp. now subst.
  - destruct l' as [|x' l'];
      [apply Permutation_sym, Permutation_nil in Hp; discriminate|].
    destruct (min_nonempty (x :: l) ltac:(discriminate)) as [m Hm].
    destruct (min_nonempty (x' :: l') ltac:(discriminate)) as [m' Hm'].
    rewrite Hm, Hm'. f_equal.
    destruct (min_spec _ _ Hm) as [Hin Hle].
    destruct (min_spec _ _ Hm') as [Hin' Hle'].
    pose proof (Hle m' (Permutation_in _ (Permutation_sym Hp) Hin')).
    pose proof (Hle' m (Permutation_in _ Hp Hin)). lia.
Qed.

(** With every phase picked once, the first pick of a phase does not depend
    on the order of the picks. *)
Lemma first_pick_permutation (ph : string) (picks picks' : list (string * Z)) :
  Permutation picks picks' ->
  NoDup (map fst picks) ->
  first_pick ph picks' = first_pick ph picks.
Proof.
  unfold first_pick. intros Hp.
  induction Hp as [|x l l' Hp IH|x y l|l l' l'' Hp1 IH1 Hp2 IH2];
    intros Hnd; simpl.
  - reflexivity.
  - destruct (String.eqb ph (fst x)); [reflexivity|].
    apply IH. now inversion Hnd.
  - destruct (String.eqb_spec ph (fst x)) as [Hx|_];
      destruct (String.eqb_spec ph (fst y)) as [Hy|_]; try reflexivity.
    exfalso. simpl in Hnd. inversion Hnd as [|? ? Hnot _]. apply Hnot.
    left. congruence.
  - rewrite IH2, IH1; auto.
    eapply Permutation_NoDup; [apply Permutation_map; exact Hp1 | exact Hnd].
Qed.

Section Access.
Context {N : Numerics}.
Implicit Types (self : Ai4epsDataset) (store : h5file) (s smp : sample).

(** X6.  When the window does not start before the waveform, the sample at
    window-local index [r - start] of every cropped channel is the sample
    at raw index [r] of the channel it was cropped from, for every raw
    index [r] of the window that the channel has; the rescaling of
    [normalize_waveform] comes after. *)
Theorem cropped_sample_is_raw_sample store self (idx : Z) smp (a b : Z) :
  window_proposal store self idx = Ok (smp, a, b) ->
  parallel_picks (apply_transform self smp) ->
  0 <= a ->
  exists s cropped,
    get_item_without_stack store self idx = Ok s
    /\ data s = map normalize_channel cropped
    /\ Forall2
         (fun raw ch =>
            forall r, a <= r < b -> r < len raw ->
                      nth_error ch (Z.to_nat (r - a))
                      = nth_error raw (Z.to_nat r))
         (data (apply_transform self smp)) cropped.
Proof.
  intros Hw Hpar Ha.
  exists (assembled self (apply_transform self smp) a b).
  exists (map (slice a b) (data (apply_transform self smp))).
  split; [exact (get_item_without_stack_ok _ _ _ _ _ _ Hw Hpar)|].
  split; [reflexivity|].
  apply Forall2_map_self. intros raw _ r Hr Hlen.
  rewrite nth_error_slice by lia. f_equal. lia.
Qed.

(** X7.  With the stacking ratio 0.0, the default, no draw of
    [torch.rand] (a float that is not negative) leads to stacking: whatever
    the partner index, [__getitem__] returns the sample of
    [get_item_without_stack], rescaled once more and without the keys
    [start_index] and [end_index]. *)
Theorem zero_ratio_never_stacks store self (idx : Z) (u : float)
  (random_idx : Z) :
  random_stack_two_waveforms_ratio self = 0%float ->
  PrimFloat.leb 0 u = true ->
  __getitem__ store self idx u random_idx
  = (s <- get_item_without_stack store self idx ;;
     Ok (set_bounds (normalize_waveform s) None None)).
Proof.
  intros Hratio Hu. unfold __getitem__.
  rewrite Hratio, (ltb_zero_of_nonneg u Hu).
  now destruct (get_item_without_stack store self idx).
Qed.

(** X8.  The HDF5 file is opened lazily and once.  A first access either
    leaves the handler unset, when the index is out of range (the file is
    then not even looked for) or when there is no file at [h5py_path], or
    it opens the file found at [h5py_path]; from then on every access,
    whatever is on the disk by then, works on that same content and leaves
    the handler as it is. *)
Theorem handler_opens_once (fs : filesystem) self (idx : Z)
  (out : access sample) (cached : option h5file) :
  get_item_without_stack_lazy fs self None idx = (out, cached) ->
  (cached = None
   /\ (out = Done (Raise IndexError)
       /\ (len (index_to_waveform_id self) <= idx
           \/ idx < - len (index_to_waveform_id self))
       \/ out = OSError /\ fs (h5py_path self) = None))
  \/ (exists h,
        fs (h5py_path self) = Some h
        /\ cached = Some h
        /\ out = Done (get_item_without_stack h self idx)
        /\ forall (fs' : filesystem) (idx' : Z),
             get_item_without_stack_lazy fs' self cached idx'
             = (Done (get_item_without_stack h self idx'), cached)).
Proof.
  unfold get_item_without_stack_lazy at 1.
  destruct (getitem (index_to_waveform_id self) idx) as [k|e] eqn:Ek.
  - unfold handler. destruct (fs (h5py_path self)) as [h|] eqn:Ef.
    + intros [= <- <-]. right. exists h. repeat split; auto.
      intros fs' idx'. unfold get_item_without_stack_lazy, handler.
      destruct (getitem (index_to_waveform_id self) idx') as [k'|e'] eqn:Ek';
        [reflexivity|].
      unfold get_item_without_stack, window_proposal. now rewrite Ek'.
    + intros [= <- <-]. left. split; [reflexivity|]. now right.
  - intros [= <- <-]. left. split; [reflexivity|]. left.
    rewrite (getitem_raises _ _ _ Ek). split; [reflexivity|].
    destruct (Z_lt_le_dec idx (- len (index_to_waveform_id self)));
      [now right|].
    destruct (Z_lt_le_dec idx (len (index_to_waveform_id self)));
      [|now left].
    destruct (getitem_total_in_range (index_to_waveform_id self) idx)
      as [k Hk]; [lia | congruence].
Qed.

(** X11.  When every phase of a record is picked once, the order in which
    the metadata list the picks is irrelevant: two stores whose records
    hold the same waveform and the same picks in different orders give the
    same outcome. *)
Theorem pick_order_is_irrelevant store store' self (idx : Z) (e st : string)
  (rec rec' : waveform_record) :
  transform self = None ->
  getitem (index_to_waveform_id self) idx = Ok (e, st) ->
  h5_lookup store e st = Ok rec ->
  h5_lookup store' e st = Ok rec' ->
  wf_data rec' = wf_data rec ->
  attr_network rec' = attr_network rec ->
  List.length (attr_phase_type rec) = List.length (attr_phase_index rec) ->
  List.length (attr_phase_type rec') = List.length (attr_phase_index rec') ->
  NoDup (attr_phase_type rec) ->
  Permutation (combine (attr_phase_type rec) (attr_phase_index rec))
              (combine (attr_phase_type rec') (attr_phase_index rec')) ->
  get_item_without_stack store' self idx
  = get_item_without_stack store self idx.
Proof.
  intros Hnone Hk Hl Hl' Hdata Hnet Hpar Hpar' Hnd Hperm.
  assert (Hhook : forall x, apply_transform self x = x)
    by (intros x; unfold apply_transform; now rewrite Hnone).
  assert (Hidx : Permutation (attr_phase_index rec) (attr_phase_index rec')).
  { rewrite <- (map_snd_combine _ _ Hpar), <- (map_snd_combine _ _ Hpar').
    now apply Permutation_map. }
  pose proof (min_permutation _ _ Hidx) as Hmin.
  destruct (Py.min (attr_phase_index rec)) as [m|err] eqn:Hm.
  - pose proof (window_proposal_ok store self idx e st rec m Hk Hl Hm) as Hw.
    pose proof (window_proposal_ok store' self idx e st rec' m Hk Hl' Hmin)
      as Hw'.
    cbv zeta in Hw, Hw'.
    pose proof (get_item_without_stack_ok store self idx _ _ _ Hw) as Hget.
    pose proof (get_item_without_stack_ok store' self idx _ _ _ Hw') as Hget'.
    rewrite Hhook in Hget, Hget'. rewrite (Hget Hpar), (Hget' Hpar').
    f_equal. unfold assembled, picks_of. simpl. rewrite Hdata, Hnet.
    assert (Hci : forall start,
      canonical_indices (phases self)
        (combine (attr_phase_type rec') (attr_phase_index rec')) start
      = canonical_indices (phases self)
          (combine (attr_phase_type rec) (attr_phase_index rec)) start).
    { intros start. unfold canonical_indices. apply map_ext. intros ph.
      rewrite (first_pick_permutation ph _ _ Hperm); [reflexivity|].
      now rewrite map_fst_combine. }
    now rewrite Hci.
  - unfold get_item_without_stack, window_proposal. rewrite Hk. simpl.
    rewrite Hl, Hl'. simpl. rewrite Hm, Hmin. reflexivity.
Qed.

(** X12.  When the earliest arrival lies less than the offset into the
    waveform, so that the window starts before the waveform and ends at or
    after its first sample, and every channel is at least as long as the
    window, the sample is returned with every channel empty: the negative
    start is read from the end of the channel and falls at or behind the
    end of the window. *)
Theorem early_arrival_gives_empty_waveform store self (idx : Z) smp (a b : Z) :
  window_proposal store self idx = Ok (smp, a, b) ->
  parallel_picks (apply_transform self smp) ->
  a < 0 <= b ->
  Forall (fun raw => window_length_in_npts self <= len raw)
         (data (apply_transform self smp)) ->
  exists s,
    get_item_without_stack store self idx = Ok s
    /\ Forall (fun ch => ch = []) (data s)
    /\ List.length (data s) = List.length (data (apply_transform self smp)).
Proof.
  intros Hw Hpar Hab Hlong.
  destruct (window_proposal_inv _ _ _ _ _ _ Hw)
    as (e & st & rec & m & _ & _ & _ & _ & Hb & _).
  eexists. split; [exact (get_item_without_stack_ok _ _ _ _ _ _ Hw Hpar)|].
  simpl. split; [|now rewrite !length_map].
  rewrite map_map. apply Forall_map.
  eapply Forall_impl; [|exact Hlong]. intros raw Hraw. cbv beta in *.
  assert (Hempty : slice a b raw = []).
  { apply length_zero_iff_nil.
    pose proof (slice_len a b raw) as Hs. unfold len in Hs at 1.
    unfold slice_bound in Hs.
    destruct (Z.ltb_spec a 0); [|lia]. destruct (Z.ltb_spec b 0); lia. }
  now rewrite Hempty.
Qed.

End Access.

(** ** More on the split *)

Section SplitterEdges.

Variable shuffle : Z -> list waveform_id -> list waveform_id.

(** X9.  The splitter reads [ratio[0]] and [ratio[1]] only: entries from
    the third on, the validation ratio among them, change nothing, and a
    list of fewer than two ratios never gives a split. *)
Theorem split_reads_two_ratios (phase_picks : list pick_row) (seed : Z) :
  (forall (r0 r1 : float) (rest rest' : list float),
     split_train_test_val_for_ai4eps shuffle phase_picks (r0 :: r1 :: rest) seed
     = split_train_test_val_for_ai4eps shuffle phase_picks
         (r0 :: r1 :: rest') seed)
  /\ (forall ratio : list float,
        (List.length ratio < 2)%nat ->
        exists e,
          split_train_test_val_for_ai4eps shuffle phase_picks ratio seed
          = Raise e).
Proof.
  split.
  - intros r0 r1 rest rest'. reflexivity.
  - intros ratio Hlen. unfold split_train_test_val_for_ai4eps.
    destruct (default_rng seed) as [rng|e]; simpl; [|eauto].
    destruct ratio as [|r0 [|r1 rest]]; simpl in Hlen; try lia.
    + exists IndexError. reflexivity.
    + unfold split_indices.
      change (getitem [r0] 0) with (Ok r0). simpl.
      destruct (int_of_float _) as [i|e]; simpl; eauto.
Qed.

Hypothesis shuffle_permutes :
  forall (seed : Z) (l : list waveform_id), Permutation (shuffle seed l) l.

(** X10.  Boundaries that are not cumulative, as a negative [ratio[1]]
    gives them, do not give a partition: for a seed that is not negative,
    with [0 <= j < i] and [j] below the number of pairs, the test list is
    empty and the pair at position [j] of the shuffled array is both in the
    train list and in the validation list. *)
Theorem unordered_boundaries_overlap (phase_picks : list pick_row)
  (ratio : list float) (seed : Z) (i j : Z) :
  0 <= seed ->
  split_indices ratio (len (drop_duplicates (id_columns phase_picks)))
  = Ok (i, j) ->
  0 <= j < i ->
  j < len (drop_duplicates (id_columns phase_picks)) ->
  exists train val k,
    split_train_test_val_for_ai4eps shuffle phase_picks ratio seed
    = Ok (train, [], val)
    /\ In k train /\ In k val.
Proof.
  intros Hseed Hcut Hji Hjn.
  set (unique := drop_duplicates (id_columns phase_picks)) in *.
  pose proof (shuffle_permutes seed unique) as Hperm.
  assert (Hlen : len (shuffle seed unique) = len unique)
    by (unfold len; now rewrite (Permutation_length Hperm)).
  set (arr := shuffle seed unique) in *.
  assert (Htest : slice i j arr = []).
  { apply length_zero_iff_nil.
    pose proof (slice_len i j arr) as Hs. unfold len in Hs at 1.
    unfold slice_bound in Hs.
    destruct (Z.ltb_spec i 0); [lia|]. destruct (Z.ltb_spec j 0); lia. }
  destruct (nth_error arr (Z.to_nat j)) as [k|] eqn:Ek;
    [|apply nth_error_None in Ek; unfold len in *; lia].
  exists (slice 0 i arr), (slice j (len arr) arr), k.
  split; [|split].
  - unfold split_train_test_val_for_ai4eps, default_rng. fold unique.
    destruct (Z.ltb_spec seed 0); [lia|]. simpl. fold arr.
    rewrite Hlen, Hcut. simpl. unfold np_split. now rewrite Htest, Hlen.
  - apply (nth_error_In _ (Z.to_nat j)).
    rewrite nth_error_slice by lia. exact Ek.
  - apply (nth_error_In _ (Z.to_nat 0)).
    rewrite nth_error_slice by lia. now rewrite Z.add_0_r.
Qed.

End SplitterEdges.

(** ** The properties at work on the fixtures *)

#[local] Existing Instance Fixture.int_numerics.

(** The end-to-end scenario of spec 8: the window is [100, 4900), the phase
    indices are 400, 800 and the absent index, the waveform keeps 4800
    samples and the label has three rows of 4800 samples. *)
Example scenario_sample :
  match get_item_without_stack [("ev9", [("B01", Fixture.rec_scenario)])]
          Fixture.scenario 0 with
  | Ok s => (start_index s, end_index s, phase_index s, map len (data s),
             option_map (map len) (label s))
  | Raise _ => (None, None, [], [], None)
  end
  = (Some 100, Some 4900, [400; 800; absent_index], [4800],
     Some [4800; 4800; 4800]).
Proof. vm_compute. reflexivity. Qed.

Example slice_clamps : slice 2 22 [0; 1; 2; 3; 4; 5; 6; 7; 8; 9] = [2; 3; 4; 5; 6; 7; 8; 9].
Proof. reflexivity. Qed.

Example slice_wraps : slice (-2) 2 [0; 1; 2; 3; 4; 5; 6; 7; 8; 9] = [].
Proof. reflexivity. Qed.

Example slice_wraps_both : slice (-5) (-2) [0; 1; 2; 3; 4; 5; 6; 7; 8; 9] = [5; 6; 7].
Proof. reflexivity. Qed.

Example getitem_last : getitem [10; 20; 30] (-1) = Ok 30.
Proof. reflexivity. Qed.

Example getitem_past_the_end : getitem [10; 20; 30] 3 = Raise IndexError.
Proof. reflexivity. Qed.

Example drop_duplicates_keeps_first :
  drop_duplicates [("a", "1"); ("b", "1"); ("a", "1"); ("a", "2"); ("b", "1")]
  = [("a", "1"); ("b", "1"); ("a", "2")].
Proof. reflexivity. Qed.

(** The boundaries of the default ratios on 11 and on 100 pairs. *)
Example default_split_indices :
  split_indices Fixture.default_ratio 11 = Ok (9, 10)
  /\ split_indices Fixture.default_ratio 100 = Ok (90, 95).
Proof. split; vm_compute; reflexivity. Qed.

Example int_truncates : int_of_float (-2.75)%float = Ok (-2).
Proof. vm_compute. reflexivity. Qed.

Lemma rotate_permutes (seed : Z) (l : list waveform_id) :
  Permutation (Fixture.rotate seed l) l.
Proof.
  unfold Fixture.rotate.
  set (k := Z.to_nat (seed mod Z.max 1 (len (rev l)))).
  rewrite Permutation_app_comm, firstn_skipn. symmetry. apply Permutation_rev.
Qed.

(** Discharges [window_fits] on a fixture by running the proposal. *)
Ltac fits :=
  let H := fresh in
  intros ? ? ? H; vm_compute in H; injection H as <- <- <-;
  simpl; repeat constructor; unfold len; simpl; lia.

(** The sample of index 0 stacked with the sample of index 1: label and
    waveform have the window length 4. *)
Lemma getitem_window_length_witness :
  exists s,
    __getitem__ Fixture.store (Fixture.dataset None 4 2) 0 0.25%float 1 = Ok s
    /\ label_has_window_length (Fixture.dataset None 4 2) s
    /\ waveform_has_window_length (Fixture.dataset None 4 2) s.
Proof.
  eexists. split; [vm_compute; reflexivity|].
  destruct (getitem_window_length Fixture.store (Fixture.dataset None 4 2)
              0 0.25%float 1 _ ltac:(simpl; lia) eq_refl) as [Hl Hw].
  split; [exact Hl|]. apply Hw; [fits | intros _; fits].
Defined.

(** C1, refuted as stated: a window of 20 samples proposed on a waveform of
    10 samples gives a sample whose channels hold 8 samples. *)
Lemma short_waveform_gives_short_window :
  exists s,
    __getitem__ Fixture.store (Fixture.dataset None 20 2) 0 0.75%float 0 = Ok s
    /\ map len (data s) = [8; 8]
    /\ ~ waveform_has_window_length (Fixture.dataset None 20 2) s.
Proof.
  eexists. split; [vm_compute; reflexivity|]. split; [reflexivity|].
  intros H. inversion H as [|ch l Hch _]. vm_compute in Hch. discriminate.
Qed.

Lemma window_bounds_without_transform_witness :
  exists s,
    get_item_without_stack Fixture.store (Fixture.dataset None 4 2) 0 = Ok s
    /\ start_index s = Some 2 /\ end_index s = Some 6
    /\ data s = [[2; 3; 4; 5]; [12; 13; 14; 15]].
Proof.
  destruct (window_bounds_without_transform Fixture.store
              (Fixture.dataset None 4 2) 0 "ev1" "A01" Fixture.rec_a
              eq_refl eq_refl eq_refl ltac:(discriminate) eq_refl)
    as (r & start & s & [Hin Hmin] & Hstart & Hget & Hs & He & Hdata & _ & _).
  assert (r = 4).
  { pose proof (Hmin 4 ltac:(simpl; auto)). simpl in Hin. lia. }
  subst r. simpl in Hstart. subst start.
  exists s. repeat split; assumption.
Defined.

Lemma phase_index_in_canonical_order_witness :
  exists s,
    get_item_without_stack Fixture.store (Fixture.dataset None 4 2) 1 = Ok s
    /\ phase_index s = [2; 6; absent_index].
Proof.
  destruct (phase_index_in_canonical_order Fixture.store
              (Fixture.dataset None 4 2) 1 _ 1 5 eq_refl eq_refl)
    as (s & Hget & _ & _ & _ & Hidx).
  exists s. split; [exact Hget | exact Hidx].
Defined.

(** P is picked at 3 and again at 8: the index emitted is 3 - 1. *)
Lemma first_occurrence_wins_witness :
  exists s,
    get_item_without_stack Fixture.store (Fixture.dataset None 4 2) 1 = Ok s
    /\ nth_error (phase_index s) 0 = Some 2.
Proof.
  apply (first_occurrence_wins Fixture.store (Fixture.dataset None 4 2) 1
           _ 1 5 "P" 0%nat 1%nat 3 eq_refl eq_refl eq_refl eq_refl).
  - intros [|j'] Hj'; [simpl; discriminate | lia].
  - reflexivity.
Defined.

Lemma crop_uses_proposed_bounds_witness :
  exists s,
    get_item_without_stack Fixture.store
      (Fixture.dataset (Some Fixture.jitter) 4 2) 0 = Ok s
    /\ phase_index s = [2; 4; absent_index]
    /\ start_index s = Some 3.
Proof.
  destruct (crop_uses_proposed_bounds Fixture.store
              (Fixture.dataset (Some Fixture.jitter) 4 2) 0 _ 2 6
              Fixture.jitter eq_refl eq_refl eq_refl)
    as (_ & s & Hget & _ & Hidx & Hstart & _).
  exists s. repeat split; assumption.
Defined.

(** C4, refuted as stated: the hook moves the window to [3, 7), and the
    sample is still cropped at [2, 6) and its indices are still counted
    from 2. *)
Lemma hook_bounds_are_not_used :
  exists smp s,
    window_proposal Fixture.store
      (Fixture.dataset (Some Fixture.jitter) 4 2) 0 = Ok (smp, 2, 6)
    /\ start_index (Fixture.jitter smp) = Some 3
    /\ end_index (Fixture.jitter smp) = Some 7
    /\ get_item_without_stack Fixture.store
         (Fixture.dataset (Some Fixture.jitter) 4 2) 0 = Ok s
    /\ phase_index s
       <> canonical_indices ["P"; "S"; "PS"] (picks_of (Fixture.jitter smp)) 3
    /\ data s
       <> map normalize_channel (map (slice 3 7) (data (Fixture.jitter smp))).
Proof.
  do 2 eexists. split; [vm_compute; reflexivity|].
  repeat split; try reflexivity; vm_compute; discriminate.
Qed.

Lemma out_of_range_window_is_sliced_witness :
  exists s,
    get_item_without_stack Fixture.store (Fixture.dataset None 20 2) 0 = Ok s
    /\ map len (data s) = [8; 8].
Proof.
  destruct (out_of_range_window_is_sliced Fixture.store
              (Fixture.dataset None 20 2) 0 _ 2 22 eq_refl eq_refl)
    as (s & Hget & Hdata & _).
  - right. constructor. vm_compute. reflexivity.
  - exists s. split; [exact Hget|]. rewrite Hdata. reflexivity.
Defined.

(** C5, refuted as stated: the window [2, 22) ends after a waveform of 10
    samples and the window [-2, 2) starts before it; neither extraction
    raises IndexError, the first is cut short to 8 samples and the second,
    read from the end of the channel, is empty. *)
Lemma out_of_range_window_does_not_raise :
  exists smp1 s1 smp2 s2,
    (window_proposal Fixture.store (Fixture.dataset None 20 2) 0
     = Ok (smp1, 2, 22)
     /\ map len (data smp1) = [10; 10]
     /\ get_item_without_stack Fixture.store (Fixture.dataset None 20 2) 0
        = Ok s1
     /\ map len (data s1) = [8; 8])
    /\ (window_proposal Fixture.store (Fixture.dataset None 4 6) 0
        = Ok (smp2, -2, 2)
        /\ get_item_without_stack Fixture.store (Fixture.dataset None 4 6) 0
           = Ok s2
        /\ map len (data s2) = [0; 0]).
Proof.
  do 4 eexists. repeat split; vm_compute; reflexivity.
Qed.

(** C6, refuted as stated: a dataset whose offset equals its window length
    is constructed. *)
Lemma init_accepts_offset_beyond_window :
  exists self,
    __init__ "data" Fixture.ids None triangle 120 4800 ["P"; "S"; "PS"]
      4800 0%float = Ok self
    /\ window_length_in_npts self
       <= first_arrival_index_in_final_window_if_no_shift self.
Proof. eexists. split; [reflexivity|]. simpl. lia. Qed.

(** C8, refuted as stated: the index -1 lies outside [0, len(self)) and a
    sample, that of the last entry, is returned. *)
Lemma negative_index_returns_a_sample :
  exists s,
    __len__ (Fixture.dataset None 4 2) = 2
    /\ __getitem__ Fixture.store (Fixture.dataset None 4 2) (-1) 0.75%float 0
       = Ok s
    /\ station_id s = "A02".
Proof. eexists. repeat split; vm_compute; reflexivity. Qed.

(** On the two-entry dataset the index 2 raises IndexError and the index -2
    is the index 0. *)
Lemma getitem_index_range_witness :
  __getitem__ Fixture.store (Fixture.dataset None 4 2) 2 0.75%float 0
  = Raise IndexError
  /\ __getitem__ Fixture.store (Fixture.dataset None 4 2) (-2) 0.75%float 0
     = __getitem__ Fixture.store (Fixture.dataset None 4 2) 0 0.75%float 0.
Proof.
  destruct (getitem_index_range Fixture.store (Fixture.dataset None 4 2)
              (-2) 0.75%float 0) as (_ & Hlen & Hneg).
  split; [exact Hlen|]. apply Hneg. unfold __len__, len. simpl. lia.
Defined.

Lemma split_is_a_seeded_partition_witness :
  exists train test val,
    split_train_test_val_for_ai4eps Fixture.rotate Fixture.picks_table
      Fixture.default_ratio 3407 = Ok (train, test, val)
    /\ len train = 9 /\ len test = 1 /\ len val = 1
    /\ NoDup (train ++ test ++ val).
Proof.
  destruct (split_is_a_seeded_partition Fixture.rotate rotate_permutes
              Fixture.picks_table 0.9%float 0.05%float [0.05%float] 3407)
    as [_ Hsplit].
  destruct (Hsplit 9 10) as
    (train & test & val & Hrun & _ & Htrain & Htest & Hval & Hnd & _).
  - lia.
  - vm_compute. reflexivity.
  - vm_compute. reflexivity.
  - exists train, test, val. split; [exact Hrun|].
    split; [exact Htrain|]. split; [exact Htest|]. split; [exact Hval|].
    apply Hnd. vm_compute. discriminate.
Defined.

(** C9, refuted as stated.  A negative seed gives no lists at all: the
    generator raises ValueError.  And the sizes are not set by the floor of
    the cumulative ratios: with the ratios 0.7, 0.1 and 0.2 on ten pairs
    the cumulative floors are 7 and 8, so that the test list should hold
    one pair, while the binary64 sum 0.7 + 0.1 lies below 0.8, both
    boundaries are 7 and the test list is empty; this holds whatever the
    shuffle. *)
Lemma split_sizes_are_not_cumulative_floors :
  (forall shuffle : Z -> list waveform_id -> list waveform_id,
     split_train_test_val_for_ai4eps shuffle Fixture.picks_table
       Fixture.default_ratio (-1) = Raise ValueError)
  /\ cumulative_floor_boundaries 7 1 10 10 = (7, 8)
  /\ len (drop_duplicates (id_columns Edge.ten_pairs)) = 10
  /\ split_indices [0.7%float; 0.1%float; 0.2%float] 10 = Ok (7, 7)
  /\ (forall shuffle : Z -> list waveform_id -> list waveform_id,
        (forall seed l, Permutation (shuffle seed l) l) ->
        exists train val,
          split_train_test_val_for_ai4eps shuffle Edge.ten_pairs
            [0.7%float; 0.1%float; 0.2%float] 3407 = Ok (train, [], val)
          /\ len train = 7 /\ len val = 3).
Proof.
  split; [reflexivity|]. split; [reflexivity|]. split; [reflexivity|].
  split; [vm_compute; reflexivity|].
  intros shuffle Hperm.
  set (unique := drop_duplicates (id_columns Edge.ten_pairs)).
  assert (Hlen : len (shuffle 3407 unique) = 10).
  { unfold len. rewrite (Permutation_length (Hperm 3407 unique)).
    reflexivity. }
  set (arr := shuffle 3407 unique) in *.
  assert (Htest : slice 7 7 arr = []).
  { apply length_zero_iff_nil.
    pose proof (slice_len 7 7 arr) as Hs. unfold len in Hs at 1. lia. }
  exists (slice 0 7 arr), (slice 7 (len arr) arr).
  split; [|split].
  - unfold split_train_test_val_for_ai4eps. fold unique.
    change (default_rng 3407) with (@Ok Z 3407). simpl. fold arr.
    rewrite Hlen.
    replace (split_indices [0.7%float; 0.1%float; 0.2%float] 10)
      with (@Ok (Z * Z) (7, 7)) by (vm_compute; reflexivity).
    simpl. unfold np_split. now rewrite Htest, Hlen.
  - rewrite slice_len, Hlen. reflexivity.
  - rewrite slice_len, Hlen. reflexivity.
Qed.

(** ** The further properties at work on the fixtures *)

(** Entry 3 names an event and entry 4 a station that the store lacks. *)
Lemma store_miss_raises_KeyError_witness :
  get_item_without_stack Edge.store (Edge.dataset 0.5%float) 3 = Raise KeyError
  /\ __getitem__ Edge.store (Edge.dataset 0.5%float) 4 0.75%float 0
     = Raise KeyError.
Proof.
  split.
  - apply (store_miss_raises_KeyError Edge.store (Edge.dataset 0.5%float) 3
             "ev7" "A01" 0.75%float 0 eq_refl).
    left. simpl. intros [H|[]]. discriminate.
  - apply (store_miss_raises_KeyError Edge.store (Edge.dataset 0.5%float) 4
             "ev1" "A09" 0.75%float 0 eq_refl).
    right. eexists. split; [reflexivity|]. simpl.
    intros [H|[H|[H|[]]]]; discriminate.
Defined.

Lemma no_pick_raises_ValueError_witness :
  get_item_without_stack Edge.store (Edge.dataset 0.5%float) 1
  = Raise ValueError
  /\ __getitem__ Edge.store (Edge.dataset 0.5%float) 1 0.25%float 0
     = Raise ValueError.
Proof.
  exact (no_pick_raises_ValueError Edge.store (Edge.dataset 0.5%float) 1
           "ev1" "A03" Edge.rec_no_pick 0.25%float 0 eq_refl eq_refl eq_refl).
Defined.

(** The ragged record lists S second and has one index only. *)
Lemma sample_or_IndexError_witness :
  get_item_without_stack Edge.store (Edge.dataset 0.5%float) 2
  = Raise IndexError.
Proof.
  destruct (sample_or_IndexError Edge.store (Edge.dataset 0.5%float) 2
              _ 2 6 eq_refl) as [_ Hraise].
  apply (Hraise "S"); simpl; auto.
Defined.

Lemma well_formed_dataset_never_fails_witness :
  exists s,
    get_item_without_stack Fixture.store (Fixture.dataset None 4 2) (-1) = Ok s
    /\ In (event_id s, station_id s) Fixture.ids.
Proof.
  apply (well_formed_dataset_never_fails Fixture.store
           (Fixture.dataset None 4 2) (-1) eq_refl).
  - intros e st [H|[H|[]]]; injection H as <- <-.
    + exists Fixture.rec_a. repeat split. discriminate.
    + exists Fixture.rec_b. repeat split. discriminate.
  - unfold __len__, len. simpl. lia.
Defined.

Lemma absent_index_marks_absent_phases_witness :
  exists s,
    get_item_without_stack Fixture.store (Fixture.dataset None 4 2) 0 = Ok s
    /\ Forall2
         (fun ph v =>
            (v = absent_index <-> ~ In ph ["P"; "S"]) /\ (In ph ["P"; "S"] -> 2 <= v))
         ["P"; "S"; "PS"] (phase_index s).
Proof.
  apply (absent_index_marks_absent_phases Fixture.store
           (Fixture.dataset None 4 2) 0 "ev1" "A01" Fixture.rec_a
           eq_refl eq_refl eq_refl ltac:(discriminate) eq_refl).
  unfold absent_index. simpl. lia.
Defined.

Lemma cropped_sample_is_raw_sample_witness :
  exists s cropped,
    get_item_without_stack Fixture.store (Fixture.dataset None 4 2) 0 = Ok s
    /\ data s = map normalize_channel cropped
    /\ Forall2
         (fun raw ch =>
            forall r, 2 <= r < 6 -> r < len raw ->
                      nth_error ch (Z.to_nat (r - 2))
                      = nth_error raw (Z.to_nat r))
         (wf_data Fixture.rec_a) cropped.
Proof.
  apply (cropped_sample_is_raw_sample Fixture.store
           (Fixture.dataset None 4 2) 0 _ 2 6 eq_refl eq_refl).
  lia.
Defined.

Lemma zero_ratio_never_stacks_witness :
  __getitem__ Edge.store (Edge.dataset 0%float) 0 0.25%float 3
  = (s <- get_item_without_stack Edge.store (Edge.dataset 0%float) 0 ;;
     Ok (set_bounds (normalize_waveform s) None None)).
Proof.
  exact (zero_ratio_never_stacks Edge.store (Edge.dataset 0%float) 0
           0.25%float 3 eq_refl eq_refl).
Defined.

(** After a first access has opened the file, an access finds its record
    although the file is gone from the disk. *)
Lemma handler_opens_once_witness :
  get_item_without_stack_lazy Edge.no_file (Edge.dataset 0.5%float)
    (Some Edge.store) 1
  = (Done (get_item_without_stack Edge.store (Edge.dataset 0.5%float) 1),
     Some Edge.store).
Proof.
  destruct (handler_opens_once (Edge.disk Edge.store) (Edge.dataset 0.5%float)
              0 _ _ eq_refl) as [[Hnone _]|(h & Hfs & Hc & _ & Hlater)].
  - discriminate.
  - injection Hc as <-. apply Hlater.
Defined.

(** The ratios 0.9 and -0.5 on the eleven pairs of the table: the
    boundaries are 9 and 4. *)
Lemma unordered_boundaries_overlap_witness :
  exists train val k,
    split_train_test_val_for_ai4eps Fixture.rotate Fixture.picks_table
      [0.9%float; (-0.5)%float; 0.6%float] 3407 = Ok (train, [], val)
    /\ In k train /\ In k val.
Proof.
  apply (unordered_boundaries_overlap Fixture.rotate rotate_permutes
           Fixture.picks_table [0.9%float; (-0.5)%float; 0.6%float] 3407 9 4).
  - lia.
  - vm_compute. reflexivity.
  - lia.
  - vm_compute. reflexivity.
Defined.

Lemma pick_order_is_irrelevant_witness :
  get_item_without_stack Edge.store_reordered (Fixture.dataset None 4 2) 0
  = get_item_without_stack Fixture.store (Fixture.dataset None 4 2) 0.
Proof.
  apply (pick_order_is_irrelevant Fixture.store Edge.store_reordered
           (Fixture.dataset None 4 2) 0 "ev1" "A01" Fixture.rec_a
           Edge.rec_a_reordered eq_refl eq_refl eq_refl eq_refl eq_refl
           eq_refl eq_refl eq_refl).
  - repeat constructor; simpl; intuition discriminate.
  - apply perm_swap.
Defined.

(** The first arrival at 4 with an offset of 6: the window is [-2, 2) on
    channels of ten samples. *)
Lemma early_arrival_gives_empty_waveform_witness :
  exists s,
    get_item_without_stack Fixture.store (Fixture.dataset None 4 6) 0 = Ok s
    /\ Forall (fun ch => ch = []) (data s)
    /\ List.length (data s) = 2%nat.
Proof.
  apply (early_arrival_gives_empty_waveform Fixture.store
           (Fixture.dataset None 4 6) 0 _ (-2) 2 eq_refl eq_refl).
  - lia.
  - repeat constructor; unfold len; simpl; lia.
Defined.
